(** * Ankibyte frontend: the upload / submit / poll / result flow

    A shallow embedding of the React component of [src/src/App.tsx]
    (module [AppTsx]), of its untyped variant [src/unnamed/part_001]
    (module [AppJs]) and of the data preparation of the embedding scatter
    plot [src/unnamed/part_002] (module [Viz]), followed by the properties
    of the flow.

    React state is a record, every [setX] call is a record update, and an
    event handler is a function from the state (and the event) to the new
    state and its effects.  The asynchronous parts (the POST of
    [handleSubmit], the interval started by [setInterval], the GET of
    [pollJobStatus]) are events of a small transition system: a timer tick
    issues a request, and the arrival of a response runs the rest of the
    handler. *)

From Stdlib Require Import List String Ascii Bool Arith ZArith QArith Lia.
From Stdlib Require Import Qround DecimalString.
Import ListNotations.
Local Open Scope string_scope.
Set Warnings "-register-all".

(** ** JavaScript values *)

Module JS.

(** A JavaScript number.  Finite doubles are rationals; the rounding of
    arithmetic is written out where a result depends on it
    ([AppJs.to_double]) and is not modelled elsewhere. *)
Inductive number : Type :=
| Fin (q : Q)
| PInf
| NInf
| NaN.

(** The values [JSON.parse] produces, and [undefined] for a missing
    property.  An object is the list of its properties; [lookup] finds the
    first binding of a key. *)
Inductive value : Type :=
| VUndefined
| VNull
| VBool (b : bool)
| VNum (n : number)
| VStr (s : string)
| VArr (elems : list value)
| VObj (props : list (string * value)).

Definition num_of_Z (z : Z) : number := Fin (inject_Z z).

(** [a === b] for numbers. *)
Definition num_eqb (a b : number) : bool :=
  match a, b with
  | Fin p, Fin q => Qeq_bool p q
  | PInf, PInf => true
  | NInf, NInf => true
  | _, _ => false
  end.

(** [a >= b] for numbers; false as soon as one side is [NaN]. *)
Definition num_geb (a b : number) : bool :=
  match a, b with
  | NaN, _ | _, NaN => false
  | PInf, _ => true
  | _, NInf => true
  | NInf, _ => false
  | _, PInf => false
  | Fin p, Fin q => Qle_bool q p
  end.

Definition Qsign (q : Q) : Z := Z.sgn (Qnum q).

(** [a * b] for numbers, without rounding. *)
Definition num_mul (a b : number) : number :=
  match a, b with
  | NaN, _ | _, NaN => NaN
  | Fin p, Fin q => Fin (p * q)
  | Fin p, PInf | PInf, Fin p =>
      match Qsign p with 0%Z => NaN | Zpos _ => PInf | Zneg _ => NInf end
  | Fin p, NInf | NInf, Fin p =>
      match Qsign p with 0%Z => NaN | Zpos _ => NInf | Zneg _ => PInf end
  | PInf, PInf | NInf, NInf => PInf
  | PInf, NInf | NInf, PInf => NInf
  end.

(** ToBoolean. *)
Definition truthy (v : value) : bool :=
  match v with
  | VUndefined | VNull => false
  | VBool b => b
  | VNum (Fin q) => negb (Qeq_bool q 0)
  | VNum NaN => false
  | VNum _ => true
  | VStr s => negb (String.eqb s "")
  | VArr _ | VObj _ => true
  end.

(** [a || b]. *)
Definition or_else (a b : value) : value := if truthy a then a else b.

Fixpoint lookup (k : string) (props : list (string * value)) : value :=
  match props with
  | [] => VUndefined
  | (k', v) :: rest => if String.eqb k k' then v else lookup k rest
  end.

(** [v.k] for the property names the component reads ([status],
    [progress_data], [task_id], ...), none of which is a property of a
    built-in prototype: reading a property of [null] or [undefined] throws
    (here [None]), a primitive or an array has no such property. *)
Definition get (v : value) (k : string) : option value :=
  match v with
  | VUndefined | VNull => None
  | VObj props => Some (lookup k props)
  | _ => Some VUndefined
  end.

(** [v === "s"]. *)
Definition is_string (v : value) (s : string) : bool :=
  match v with
  | VStr s' => String.eqb s' s
  | _ => false
  end.

(** [v === n]. *)
Definition is_number (v : value) (n : number) : bool :=
  match v with
  | VNum m => num_eqb m n
  | _ => false
  end.

(** [s.endsWith(suffix)]. *)
Definition endsWith (s suffix : string) : bool :=
  let n := String.length s in
  let m := String.length suffix in
  (m <=? n)%nat && String.eqb (substring (n - m) m s) suffix.

(** [s.includes(sub)]. *)
Fixpoint includes (s sub : string) : bool :=
  prefix sub s ||
  match s with
  | EmptyString => false
  | String _ rest => includes rest sub
  end.

(** The decimal numeral of a non-negative integer, as a template literal
    prints it. *)
Definition decimal (n : N) : string :=
  NilZero.string_of_uint (N.to_uint n).

(** Whether an object parsed from JSON has the own property [k]. *)
Definition has_key (k : string) (props : list (string * value)) : bool :=
  existsb (fun p => String.eqb k (fst p)) props.

(** *** Strings that [Number] reads as a number

    The StringNumericLiteral grammar of the language, on the code units
    below 256 that a [string] here holds. *)

Definition code_in (lo hi : nat) (c : ascii) : bool :=
  let n := nat_of_ascii c in ((lo <=? n) && (n <=? hi))%nat.

Definition is_char (a c : ascii) : bool := Ascii.eqb a c.

(** StrWhiteSpaceChar: tab, line feed, vertical tab, form feed, carriage
    return, space and no-break space. *)
Definition white_space (c : ascii) : bool :=
  code_in 9 13 c || code_in 32 32 c || code_in 160 160 c.

Definition dec_digit (c : ascii) : bool := code_in 48 57 c.
Definition bin_digit (c : ascii) : bool := code_in 48 49 c.
Definition oct_digit (c : ascii) : bool := code_in 48 55 c.
Definition hex_digit (c : ascii) : bool :=
  dec_digit c || code_in 65 70 c || code_in 97 102 c.

(** What follows the longest run of characters in [p]. *)
Fixpoint skip (p : ascii -> bool) (l : list ascii) : list ascii :=
  match l with
  | c :: rest => if p c then skip p rest else l
  | [] => []
  end.

Definition starts (p : ascii -> bool) (l : list ascii) : bool :=
  match l with
  | c :: _ => p c
  | [] => false
  end.

(** One character of [p] or more, and nothing else. *)
Definition all_of (p : ascii -> bool) (l : list ascii) : bool :=
  starts p l && match skip p l with [] => true | _ :: _ => false end.

(** ExponentPart, or nothing. *)
Definition exponent_part (l : list ascii) : bool :=
  match l with
  | [] => true
  | c :: rest =>
      (is_char "e" c || is_char "E" c) &&
      all_of dec_digit
        match rest with
        | sign :: rest' =>
            if is_char "+" sign || is_char "-" sign then rest' else rest
        | [] => []
        end
  end.

(** StrUnsignedDecimalLiteral. *)
Definition unsigned_decimal (l : list ascii) : bool :=
  String.eqb (string_of_list_ascii l) "Infinity" ||
  match l with
  | c :: rest =>
      if is_char "." c
      then starts dec_digit rest && exponent_part (skip dec_digit rest)
      else
        dec_digit c &&
        match skip dec_digit l with
        | d :: rest' =>
            if is_char "." d
            then exponent_part (skip dec_digit rest')
            else exponent_part (d :: rest')
        | [] => true
        end
  | [] => false
  end.

(** StrDecimalLiteral. *)
Definition signed_decimal (l : list ascii) : bool :=
  match l with
  | c :: rest =>
      if is_char "+" c || is_char "-" c
      then unsigned_decimal rest
      else unsigned_decimal l
  | [] => false
  end.

(** NonDecimalIntegerLiteral. *)
Definition non_decimal (l : list ascii) : bool :=
  match l with
  | z :: x :: rest =>
      is_char "0" z &&
      (((is_char "b" x || is_char "B" x) && all_of bin_digit rest) ||
       ((is_char "o" x || is_char "O" x) && all_of oct_digit rest) ||
       ((is_char "x" x || is_char "X" x) && all_of hex_digit rest))
  | _ => false
  end.

Definition trim (l : list ascii) : list ascii :=
  rev (skip white_space (rev (skip white_space l))).

(** Whether [Number(s)] is a number rather than [NaN]. *)
Definition numeric_string (s : string) : bool :=
  match trim (list_ascii_of_string s) with
  | [] => true
  | l => signed_decimal l || non_decimal l
  end.

(** [String(v)] for an element [v] of an array that is being joined, as
    far as [Number] needs it: [None] when the conversion throws, which it
    does for an object whose own [toString] property shadows the method,
    and otherwise whether the string reads as a number.  [null] and
    [undefined] give the empty string, an array is joined in turn, and the
    join of two elements or more holds a comma. *)
Fixpoint joined_numeric (v : value) : option bool :=
  match v with
  | VUndefined | VNull => Some true
  | VBool _ => Some false
  | VNum NaN => Some false
  | VNum _ => Some true
  | VStr s => Some (numeric_string s)
  | VArr elems =>
      match elems with
      | [] => Some true
      | [e] => joined_numeric e
      | _ =>
          if forallb (fun e => match joined_numeric e with
                               | Some _ => true
                               | None => false
                               end) elems
          then Some false
          else None
      end
  | VObj props => if has_key "toString" props then None else Some false
  end.

(** Whether [v.toLocaleString()] returns rather than throws, for a [v]
    other than [null] and [undefined].  The method of an object calls its
    [toString], and an own property of either name, which after
    [JSON.parse] is no function, shadows the method; the method of an
    array calls the method of every element other than [null] and
    [undefined]. *)
Fixpoint toLocaleString_returns (v : value) : bool :=
  match v with
  | VArr elems => forallb toLocaleString_returns elems
  | VObj props => negb (has_key "toLocaleString" props || has_key "toString" props)
  | _ => true
  end.

(** [isNaN(v)]; [None] when the conversion to a number throws. *)
Definition isNaN (v : value) : option bool :=
  match v with
  | VUndefined => Some true
  | VNull | VBool _ => Some false
  | VNum NaN => Some true
  | VNum _ => Some false
  | VStr s => Some (negb (numeric_string s))
  | VArr _ | VObj _ => option_map negb (joined_numeric v)
  end.

End JS.
Import JS.

(** The browser's [File]: only its name and its size are read. *)
Record File : Type := mkFile {
  fileName : string;
  fileSize : N
}.

(** The multipart body built by [handleSubmit]. *)
Record FormData : Type := mkFormData {
  anki_file : File;
  study_material : File;
  custom_tag : string;
  model : string
}.

(** The slot of a file input: ["anki" | "study"]. *)
Inductive FileType : Type := anki | study.

(** ** Tag-prefix sanitizer, shared by both variants *)

Definition is_upper (c : ascii) : bool :=
  let n := nat_of_ascii c in (65 <=? n)%nat && (n <=? 90)%nat.
Definition is_lower (c : ascii) : bool :=
  let n := nat_of_ascii c in (97 <=? n)%nat && (n <=? 122)%nat.
Definition is_digit (c : ascii) : bool :=
  let n := nat_of_ascii c in (48 <=? n)%nat && (n <=? 57)%nat.

(** The character class [[a-zA-Z0-9]]. *)
Definition is_alnum (c : ascii) : bool := is_lower c || is_upper c || is_digit c.

(** [s.replace(/[^a-zA-Z0-9]/g, "_")]: the global flag replaces every
    character the negated class matches, one at a time. *)
Fixpoint sanitizeTag (s : string) : string :=
  match s with
  | EmptyString => EmptyString
  | String c rest =>
      String (if is_alnum c then c else "_"%char) (sanitizeTag rest)
  end.

(** The character class [[A-Za-z0-9_]] and the match of
    [^[A-Za-z0-9_]*$]. *)
Definition is_tag_char (c : ascii) : bool := is_alnum c || Ascii.eqb c "_".

Fixpoint matches_tag_regex (s : string) : bool :=
  match s with
  | EmptyString => true
  | String c rest => is_tag_char c && matches_tag_regex rest
  end.

(** ** Promises, exceptions and handlers *)

(** What awaiting a promise gives: the value it resolves to, or the
    rejection.  Everything thrown or rejected in this program is an
    [Error] instance (a [TypeError] of [fetch] or of a property access, a
    [SyntaxError] of the JSON parser, or [new Error(...)]), so an exception
    is its [message]. *)
Inductive exn : Type := Error (message : string).

Inductive Fetched (A : Type) : Type :=
| Rejected (e : exn)
| Resolved (a : A).
Arguments Rejected {A} e.
Arguments Resolved {A} a.

(** The parts of a [fetch] response the component reads. *)
Record Response : Type := mkResponse {
  ok : bool;                       (* response.ok *)
  status : N;                      (* response.status *)
  contentType : option string;     (* response.headers.get("content-type") *)
  text : Fetched string;           (* await response.text() *)
  json : Fetched value             (* await response.json() *)
}.

Inductive result (A : Type) : Type :=
| Ok (a : A)
| Throw (e : exn).
Arguments Ok {A} a.
Arguments Throw {A} e.

(** A handler body: it updates the state [S] and returns or throws.  The
    updates made before a [throw] stay. *)
Definition M (S A : Type) : Type := S -> S * result A.

Definition ret {S A} (a : A) : M S A := fun s => (s, Ok a).

Definition bind {S A B} (m : M S A) (k : A -> M S B) : M S B :=
  fun s =>
    match m s with
    | (s', Ok a) => k a s'
    | (s', Throw e) => (s', Throw e)
    end.

Definition throw {S A} (e : exn) : M S A := fun s => (s, Throw e).

(** [try { m } catch (err) { h err }]. *)
Definition try_catch {S A} (m : M S A) (h : exn -> M S A) : M S A :=
  fun s =>
    match m s with
    | (s', Ok a) => (s', Ok a)
    | (s', Throw e) => h e s'
    end.

Definition modify {S} (f : S -> S) : M S unit := fun s => (f s, Ok tt).

Definition await {S A} (p : Fetched A) : M S A :=
  match p with
  | Resolved a => ret a
  | Rejected e => throw e
  end.

(** Runs a handler of a part [S] of the state [T]. *)
Definition zoom {S T A} (proj : T -> S) (upd : S -> T -> T) (m : M S A) : M T A :=
  fun t =>
    match m (proj t) with
    | (s', r) => (upd s' t, r)
    end.

Declare Scope handler_scope.
Delimit Scope handler_scope with handler.
Notation "x <- m ;; k" := (bind m (fun x => k))
  (at level 61, m at next level, right associativity) : handler_scope.
Notation "m ;; k" := (bind m (fun _ => k))
  (at level 61, right associativity) : handler_scope.
Notation "'when' c 'then' m" := (if c then m else ret tt)
  (at level 60, c at level 9, no associativity) : handler_scope.

Definition message_of (e : exn) : string := match e with Error m => m end.

(** ** The component of src/src/App.tsx *)

Module AppTsx.

(** The [useState] cells of the component. *)
Record State : Type := mkState {
  ankiFile : option File;
  studyMaterial : option File;
  processing : bool;
  progress : number;
  error : value;                 (* string | null *)
  success : option string;
  estimatedTime : option number;
  jobId : value;                 (* string | null *)
  currentPhase : value;          (* string | null *)
  customTag : string;
  selectedModel : string;
  processingResults : value;     (* ProcessingResponse | null *)
  showResults : bool
}.

(** The state at mount: the arguments of the [useState] calls. *)
Definition initialState : State :=
  {| ankiFile := None;
     studyMaterial := None;
     processing := false;
     progress := num_of_Z 0;
     error := VNull;
     success := None;
     estimatedTime := None;
     jobId := VNull;
     currentPhase := VNull;
     customTag := "";
     selectedModel := "text-embedding-3-small";
     processingResults := VNull;
     showResults := false |}.

Definition setAnkiFile (x : option File) (s : State) : State :=
  mkState x (studyMaterial s) (processing s) (progress s) (error s) (success s)
    (estimatedTime s) (jobId s) (currentPhase s) (customTag s) (selectedModel s)
    (processingResults s) (showResults s).
Definition setStudyMaterial (x : option File) (s : State) : State :=
  mkState (ankiFile s) x (processing s) (progress s) (error s) (success s)
    (estimatedTime s) (jobId s) (currentPhase s) (customTag s) (selectedModel s)
    (processingResults s) (showResults s).
Definition setProcessing (x : bool) (s : State) : State :=
  mkState (ankiFile s) (studyMaterial s) x (progress s) (error s) (success s)
    (estimatedTime s) (jobId s) (currentPhase s) (customTag s) (selectedModel s)
    (processingResults s) (showResults s).
Definition setProgress (x : number) (s : State) : State :=
  mkState (ankiFile s) (studyMaterial s) (processing s) x (error s) (success s)
    (estimatedTime s) (jobId s) (currentPhase s) (customTag s) (selectedModel s)
    (processingResults s) (showResults s).
Definition setError (x : value) (s : State) : State :=
  mkState (ankiFile s) (studyMaterial s) (processing s) (progress s) x (success s)
    (estimatedTime s) (jobId s) (currentPhase s) (customTag s) (selectedModel s)
    (processingResults s) (showResults s).
Definition setSuccess (x : option string) (s : State) : State :=
  mkState (ankiFile s) (studyMaterial s) (processing s) (progress s) (error s) x
    (estimatedTime s) (jobId s) (currentPhase s) (customTag s) (selectedModel s)
    (processingResults s) (showResults s).
Definition setEstimatedTime (x : option number) (s : State) : State :=
  mkState (ankiFile s) (studyMaterial s) (processing s) (progress s) (error s)
    (success s) x (jobId s) (currentPhase s) (customTag s) (selectedModel s)
    (processingResults s) (showResults s).
Definition setJobId (x : value) (s : State) : State :=
  mkState (ankiFile s) (studyMaterial s) (processing s) (progress s) (error s)
    (success s) (estimatedTime s) x (currentPhase s) (customTag s) (selectedModel s)
    (processingResults s) (showResults s).
Definition setCurrentPhase (x : value) (s : State) : State :=
  mkState (ankiFile s) (studyMaterial s) (processing s) (progress s) (error s)
    (success s) (estimatedTime s) (jobId s) x (customTag s) (selectedModel s)
    (processingResults s) (showResults s).
Definition setCustomTag (x : string) (s : State) : State :=
  mkState (ankiFile s) (studyMaterial s) (processing s) (progress s) (error s)
    (success s) (estimatedTime s) (jobId s) (currentPhase s) x (selectedModel s)
    (processingResults s) (showResults s).
Definition setSelectedModel (x : string) (s : State) : State :=
  mkState (ankiFile s) (studyMaterial s) (processing s) (progress s) (error s)
    (success s) (estimatedTime s) (jobId s) (currentPhase s) (customTag s) x
    (processingResults s) (showResults s).
Definition setProcessingResults (x : value) (s : State) : State :=
  mkState (ankiFile s) (studyMaterial s) (processing s) (progress s) (error s)
    (success s) (estimatedTime s) (jobId s) (currentPhase s) (customTag s)
    (selectedModel s) x (showResults s).
Definition setShowResults (x : bool) (s : State) : State :=
  mkState (ankiFile s) (studyMaterial s) (processing s) (progress s) (error s)
    (success s) (estimatedTime s) (jobId s) (currentPhase s) (customTag s)
    (selectedModel s) (processingResults s) x.

(** [resetState]. *)
Definition resetState (s : State) : State :=
  setCustomTag ""
    (setCurrentPhase VNull
      (setJobId VNull
        (setEstimatedTime None
          (setSuccess None
            (setError VNull
              (setProgress (num_of_Z 0)
                (setStudyMaterial None
                  (setAnkiFile None s)))))))).

(** [handleFileUpload]; [file] is [event.target.files?.[0]]. *)
Definition handleFileUpload (file : option File) (fileType : FileType) (s : State) : State :=
  let s := setSuccess None (setError VNull s) in
  match file with
  | None => s
  | Some f =>
      match fileType with
      | anki =>
          if negb (endsWith (fileName f) ".apkg")
          then setError (VStr "Please upload a valid Anki deck file (.apkg)") s
          else setAnkiFile (Some f) s
      | study =>
          if negb (endsWith (fileName f) ".pdf")
          then setError (VStr "Please upload a PDF study material") s
          else setStudyMaterial (Some f) s
      end
  end.

(** [handleTagChange]; [v] is [event.target.value]. *)
Definition handleTagChange (v : string) (s : State) : State :=
  let sanitizedTag := sanitizeTag v in
  setCustomTag sanitizedTag s.

(** [handleModelChange]. *)
Definition handleModelChange (v : string) (s : State) : State :=
  setSelectedModel v s.

(** [processingResults?.k]. *)
Definition opt_get (v : value) (k : string) : value :=
  match get v k with
  | Some x => x
  | None => VUndefined
  end.

(** Whether [formatTime(time)] returns rather than throws.  A string goes
    through [parseFloat]; any other value is used as it is, so that
    [toFixed] is called on it unless [isNaN] holds of it: only a number
    has that method. *)
Definition formatTime_returns (time : value) : bool :=
  match time with
  | VStr _ => true
  | VNum _ => true
  | _ =>
      match isNaN time with
      | Some b => b
      | None => false
      end
  end.

(** Whether [StatCard] renders: its body calls [value.toLocaleString()]. *)
Definition StatCard_renders (value : value) : bool :=
  toLocaleString_returns value.

(** Whether [{value}] is something React renders as the child of an
    element: text for a string or a number, nothing for [null],
    [undefined] and a boolean, the elements of an array in turn; an object
    that is no element is refused with an exception. *)
Fixpoint valid_child (value : value) : bool :=
  match value with
  | VArr elems => forallb valid_child elems
  | VObj _ => false
  | _ => true
  end.

(** Whether [MetricItem] renders: its body is [{label}] and [{value}]. *)
Definition MetricItem_renders (value : value) : bool :=
  valid_child value.

(** Whether [renderResults] puts the results on the page, with the
    "Process Another Deck" button in them, rather than returning [null] or
    ending in an exception: the guard lets it pass, the four [StatCard]s
    render, [processing_metrics] can be read for its [embedding_model] and
    its [processing_time], [formatTime] returns and the two [MetricItem]s
    render.  Where the response holds a chart, its drawing is the chart
    library's and is taken to succeed, so the button is on the page in no
    other state than these. *)
Definition resultsRendered (s : State) : bool :=
  let results := processingResults s in
  let statistics := opt_get results "statistics" in
  let processing_metrics := opt_get results "processing_metrics" in
  negb (negb (showResults s) || negb (truthy statistics))
  && forallb
       (fun k => StatCard_renders (or_else (opt_get statistics k) (VNum (num_of_Z 0))))
       ["total_cards"; "high_relevance"; "medium_relevance"; "low_relevance"]
  && match get processing_metrics "embedding_model",
           get processing_metrics "processing_time" with
     | Some embedding_model, Some processing_time =>
         MetricItem_renders embedding_model && formatTime_returns processing_time
     | _, _ => false
     end.

(** The [onClick] of the "Process Another Deck" button. *)
Definition processAnotherDeck (s : State) : State :=
  resetState (setProcessingResults VNull (setShowResults false s)).

(** [getButtonText]. *)
Definition getButtonText (s : State) : string :=
  if processing s then "Processing..."
  else if showResults s && truthy (opt_get (processingResults s) "download_url")
       then "Download Tagged Deck"
       else "Process Deck".

Section Host.

(** [parseFloat], and the message of the [TypeError] of reading the
    property [k] of [null], are the browser's. *)
Variable parseFloat : value -> number.
Variable typeErrorMessage : string -> string.

Local Open Scope handler_scope.

(** [v.k] inside a handler. *)
Definition prop {S} (v : value) (k : string) : M S value :=
  match get v k with
  | Some x => ret x
  | None => throw (Error (typeErrorMessage k))
  end.

(** [pollJobStatus], from the moment its [fetch] settles with [r]. *)
Definition pollJobStatus (r : Fetched Response) : M State bool :=
  try_catch
    (response <- await r ;;
     data <- await (json response) ;;
     progress_data <- prop data "progress_data" ;;
     (if truthy progress_data then
        p <- prop progress_data "progress" ;;
        let currentProgress := parseFloat (or_else p (VNum (num_of_Z 0))) in
        phase <- prop progress_data "phase" ;;
        t <- prop progress_data "estimated_time_remaining" ;;
        let timeRemaining := parseFloat (or_else t (VNum (num_of_Z 0))) in
        modify (setProgress currentProgress) ;;
        when (truthy phase) then modify (setCurrentPhase phase) ;;
        when (num_geb timeRemaining (num_of_Z 0)) then
          modify (setEstimatedTime (Some timeRemaining))
      else ret tt) ;;
     completed <-
       (st <- prop data "status" ;;
        if is_string st "COMPLETED" then ret true
        else
          pd <- prop data "progress_data" ;;
          if truthy pd then
            pd' <- prop data "progress_data" ;;
            p <- prop pd' "progress" ;;
            ret (is_number p (num_of_Z 100))
          else ret false) ;;
     if completed then
       modify (setSuccess (Some "Processing completed successfully!")) ;;
       modify (setProcessing false) ;;
       modify (setShowResults true) ;;
       statistics <- prop data "statistics" ;;
       when (truthy statistics) then modify (setProcessingResults data) ;;
       ret true
     else
       st' <- prop data "status" ;;
       if is_string st' "FAILED" then
         error_message <- prop data "error_message" ;;
         modify (setError (or_else error_message (VStr "Processing failed"))) ;;
         modify (setProcessing false) ;;
         ret true
       else ret false)
    (fun _ => ret false).

(** *** The component and its environment

    Besides the React state, a world holds what the handlers have set in
    motion: the intervals that are still active, each with the [data] its
    callback closes over; the requests in flight; and a log of the requests
    issued so far. *)
Record World : Type := mkWorld {
  ui : State;
  intervals : list (nat * value);      (* active: id, captured [data] *)
  nextInterval : nat;                  (* the id [setInterval] returns next *)
  pendingPolls : list (nat * value);   (* GETs in flight: interval, captured [data] *)
  pendingSubmits : nat;                (* POSTs in flight *)
  statusRequests : list (nat * value); (* GETs issued: interval, job id in the URL *)
  posts : list FormData;               (* POSTs issued *)
  downloads : list value               (* hrefs of the clicked download links *)
}.

Definition initialWorld : World :=
  {| ui := initialState;
     intervals := [];
     nextInterval := 0;
     pendingPolls := [];
     pendingSubmits := 0;
     statusRequests := [];
     posts := [];
     downloads := [] |}.

Definition on_ui (f : State -> State) (w : World) : World :=
  mkWorld (f (ui w)) (intervals w) (nextInterval w) (pendingPolls w)
    (pendingSubmits w) (statusRequests w) (posts w) (downloads w).

Definition set_ui (s : State) (w : World) : World := on_ui (fun _ => s) w.

(** [setInterval(callback, 1000)], the callback closing over [data]. *)
Definition setInterval (data : value) (w : World) : World :=
  mkWorld (ui w) (intervals w ++ [(nextInterval w, data)]) (S (nextInterval w))
    (pendingPolls w) (pendingSubmits w) (statusRequests w) (posts w) (downloads w).

(** [clearInterval(pollInterval)]. *)
Definition clearInterval (i : nat) (w : World) : World :=
  mkWorld (ui w) (filter (fun p => negb (fst p =? i)%nat) (intervals w))
    (nextInterval w) (pendingPolls w) (pendingSubmits w) (statusRequests w)
    (posts w) (downloads w).

(** The [fetch] of [pollJobStatus], called by the callback of interval
    [i]. *)
Definition fetchStatus (i : nat) (job : value) (data : value) (w : World) : World :=
  mkWorld (ui w) (intervals w) (nextInterval w) (pendingPolls w ++ [(i, data)])
    (pendingSubmits w) (statusRequests w ++ [(i, job)]) (posts w) (downloads w).

(** The [fetch] of [handleSubmit]. *)
Definition fetchProcessDeck (body : FormData) (w : World) : World :=
  mkWorld (ui w) (intervals w) (nextInterval w) (pendingPolls w)
    (S (pendingSubmits w)) (statusRequests w) (posts w ++ [body]) (downloads w).

Definition settlePoll (n : nat) (w : World) : World :=
  mkWorld (ui w) (intervals w) (nextInterval w)
    (firstn n (pendingPolls w) ++ skipn (S n) (pendingPolls w))
    (pendingSubmits w) (statusRequests w) (posts w) (downloads w).

Definition settleSubmit (w : World) : World :=
  mkWorld (ui w) (intervals w) (nextInterval w) (pendingPolls w)
    (pred (pendingSubmits w)) (statusRequests w) (posts w) (downloads w).

Definition clickDownload (href : value) (w : World) : World :=
  mkWorld (ui w) (intervals w) (nextInterval w) (pendingPolls w)
    (pendingSubmits w) (statusRequests w) (posts w) (downloads w ++ [href]).

Fixpoint interval_data (i : nat) (l : list (nat * value)) : option value :=
  match l with
  | [] => None
  | (j, data) :: rest => if (j =? i)%nat then Some data else interval_data i rest
  end.

(** [handleSubmit] up to its [await fetch(...)]. *)
Definition handleSubmit (w : World) : World :=
  let s := ui w in
  match ankiFile s, studyMaterial s with
  | Some a, Some m =>
      if negb (truthy (VStr (customTag s)))
      then on_ui (setError (VStr "Please enter a tag prefix for your cards")) w
      else
        let w :=
          on_ui (fun s =>
            setEstimatedTime None
              (setProcessingResults VNull
                (setShowResults false
                  (setCurrentPhase (VStr "Initializing")
                    (setSuccess None
                      (setError VNull
                        (setProgress (num_of_Z 0)
                          (setProcessing true s)))))))) w in
        let formData :=
          {| anki_file := a; study_material := m;
             custom_tag := customTag s; model := selectedModel s |} in
        fetchProcessDeck formData w
  | _, _ =>
      on_ui (setError (VStr "Please upload both an Anki deck and study material")) w
  end.

(** The [catch] of the interval callback. *)
Definition pollFailed (i : nat) : M World unit :=
  modify (clearInterval i) ;;
  modify (on_ui (setError (VStr "Error checking progress"))) ;;
  modify (on_ui (setProcessing false)).

(** The interval callback up to the [fetch] of [pollJobStatus]. *)
Definition intervalCallback (i : nat) (data : value) : M World unit :=
  try_catch
    (task_id <- prop data "task_id" ;;
     modify (fetchStatus i task_id data))
    (fun _ => pollFailed i).

(** The interval callback from the moment that [fetch] settles. *)
Definition intervalCallback_resume (i : nat) (data : value) (r : Fetched Response)
  : M World unit :=
  try_catch
    (completed <- zoom ui set_ui (pollJobStatus r) ;;
     when completed then
       (modify (clearInterval i) ;;
        modify (on_ui (setProcessingResults data))))
    (fun _ => pollFailed i).

(** [handleSubmit] from the moment its [fetch] settles with [r].  The
    function it returns at the end is dropped by its only caller. *)
Definition handleSubmit_resume (r : Fetched Response) : M World unit :=
  try_catch
    (response <- await r ;;
     when (negb (ok response)) then
       throw (Error ("Server error: " ++ decimal (status response))) ;;
     data <- await (json response) ;;
     task_id <- prop data "task_id" ;;
     when (truthy task_id) then
       (task_id' <- prop data "task_id" ;;
        modify (on_ui (setJobId task_id')) ;;
        modify (setInterval data)))
    (fun err =>
       modify (on_ui (setError (VStr (message_of err)))) ;;
       modify (on_ui (setProcessing false))).

(** [handleButtonClick]. *)
Definition handleButtonClick (w : World) : World :=
  let download_url := opt_get (processingResults (ui w)) "download_url" in
  if showResults (ui w) && truthy download_url
  then clickDownload download_url w
  else handleSubmit w.

(** What can happen to the mounted component. *)
Inductive Event : Type :=
| FileChosen (fileType : FileType) (file : option File)
| TagTyped (v : string)
| ModelSelected (v : string)
| ButtonClicked
| AnotherDeckClicked
| SubmitSettled (r : Fetched Response)
| Tick (i : nat)
| PollSettled (n : nat) (r : Fetched Response).

Definition exec {A} (m : M World A) (w : World) : World := fst (m w).

(** One event.  The main button is disabled while processing, the
    "Process Another Deck" button exists only with the results, a cleared
    interval does not fire, and only a request in flight can settle. *)
Definition step (w : World) (e : Event) : World :=
  match e with
  | FileChosen fileType file => on_ui (handleFileUpload file fileType) w
  | TagTyped v => on_ui (handleTagChange v) w
  | ModelSelected v => on_ui (handleModelChange v) w
  | ButtonClicked => if processing (ui w) then w else handleButtonClick w
  | AnotherDeckClicked =>
      if resultsRendered (ui w) then on_ui processAnotherDeck w else w
  | SubmitSettled r =>
      match pendingSubmits w with
      | O => w
      | S _ => exec (handleSubmit_resume r) (settleSubmit w)
      end
  | Tick i =>
      match interval_data i (intervals w) with
      | Some data => exec (intervalCallback i data) w
      | None => w
      end
  | PollSettled n r =>
      match nth_error (pendingPolls w) n with
      | Some (i, data) => exec (intervalCallback_resume i data r) (settlePoll n w)
      | None => w
      end
  end.

Definition run (w : World) (events : list Event) : World :=
  fold_left step events w.


End Host.

End AppTsx.

(** ** The untyped variant of the component (src/unnamed/part_001) *)

Module AppJs.

Record State : Type := mkState {
  ankiFile : option File;
  studyMaterial : option File;
  processing : bool;
  progress : value;
  error : value;
  success : option string;
  estimatedTime : value;
  jobId : value;
  currentPhase : value;
  customTag : string;
  selectedModel : string
}.

Definition initialState : State :=
  {| ankiFile := None;
     studyMaterial := None;
     processing := false;
     progress := VNum (num_of_Z 0);
     error := VNull;
     success := None;
     estimatedTime := VNull;
     jobId := VNull;
     currentPhase := VNull;
     customTag := "";
     selectedModel := "text-embedding-3-small" |}.

Definition setAnkiFile (x : option File) (s : State) : State :=
  mkState x (studyMaterial s) (processing s) (progress s) (error s) (success s)
    (estimatedTime s) (jobId s) (currentPhase s) (customTag s) (selectedModel s).
Definition setStudyMaterial (x : option File) (s : State) : State :=
  mkState (ankiFile s) x (processing s) (progress s) (error s) (success s)
    (estimatedTime s) (jobId s) (currentPhase s) (customTag s) (selectedModel s).
Definition setProcessing (x : bool) (s : State) : State :=
  mkState (ankiFile s) (studyMaterial s) x (progress s) (error s) (success s)
    (estimatedTime s) (jobId s) (currentPhase s) (customTag s) (selectedModel s).
Definition setProgress (x : value) (s : State) : State :=
  mkState (ankiFile s) (studyMaterial s) (processing s) x (error s) (success s)
    (estimatedTime s) (jobId s) (currentPhase s) (customTag s) (selectedModel s).
Definition setError (x : value) (s : State) : State :=
  mkState (ankiFile s) (studyMaterial s) (processing s) (progress s) x (success s)
    (estimatedTime s) (jobId s) (currentPhase s) (customTag s) (selectedModel s).
Definition setSuccess (x : option string) (s : State) : State :=
  mkState (ankiFile s) (studyMaterial s) (processing s) (progress s) (error s) x
    (estimatedTime s) (jobId s) (currentPhase s) (customTag s) (selectedModel s).
Definition setEstimatedTime (x : value) (s : State) : State :=
  mkState (ankiFile s) (studyMaterial s) (processing s) (progress s) (error s)
    (success s) x (jobId s) (currentPhase s) (customTag s) (selectedModel s).
Definition setJobId (x : value) (s : State) : State :=
  mkState (ankiFile s) (studyMaterial s) (processing s) (progress s) (error s)
    (success s) (estimatedTime s) x (currentPhase s) (customTag s) (selectedModel s).
Definition setCurrentPhase (x : value) (s : State) : State :=
  mkState (ankiFile s) (studyMaterial s) (processing s) (progress s) (error s)
    (success s) (estimatedTime s) (jobId s) x (customTag s) (selectedModel s).
Definition setCustomTag (x : string) (s : State) : State :=
  mkState (ankiFile s) (studyMaterial s) (processing s) (progress s) (error s)
    (success s) (estimatedTime s) (jobId s) (currentPhase s) x (selectedModel s).
Definition setSelectedModel (x : string) (s : State) : State :=
  mkState (ankiFile s) (studyMaterial s) (processing s) (progress s) (error s)
    (success s) (estimatedTime s) (jobId s) (currentPhase s) (customTag s) x.

(** [resetState]. *)
Definition resetState (s : State) : State :=
  setCustomTag ""
    (setCurrentPhase VNull
      (setJobId VNull
        (setEstimatedTime VNull
          (setSuccess None
            (setError VNull
              (setProgress (VNum (num_of_Z 0))
                (setStudyMaterial None
                  (setAnkiFile None s)))))))).

(** The multiple of [u] nearest to [n]; of two equally near, the even
    multiple. *)
Definition round_to (u n : Z) : Z :=
  let q := (n / u)%Z in
  let r := (n mod u)%Z in
  ((if (2 * r <? u)%Z then q
    else if (u <? 2 * r)%Z then q + 1
    else if Z.even q then q else q + 1) * u)%Z.

(** The double nearest to a non-negative integer: the integer itself
    below 2^53, and from there on the nearest integer of 53 significant
    bits, ties to even. *)
Definition to_double (n : Z) : Z :=
  if (n <? 2 ^ 53)%Z then n else round_to (2 ^ (Z.log2 n - 52)) n.

(** [Math.ceil((size / (1024 * 1024)) * 30)], the rounding of the doubles
    written out.  [size] is [file.size] as a number; dividing it by 2^20
    only moves the exponent, so the quotient is exact, and the product is
    the nearest double to 30 * size / 2^20, which is the nearest double to
    30 * size, divided by 2^20. *)
Definition estimatedSeconds (size : N) : number :=
  let product := to_double (to_double (Z.of_N size) * 30) in
  num_of_Z (Qceiling (inject_Z product / inject_Z (1024 * 1024))).

(** [handleFileUpload]; [file] is [event.target.files[0]]. *)
Definition handleFileUpload (file : option File) (fileType : FileType) (s : State) : State :=
  let s := setSuccess None (setError VNull s) in
  match file with
  | None => s
  | Some f =>
      match fileType with
      | anki =>
          if negb (endsWith (fileName f) ".apkg")
          then setError (VStr "Please upload a valid Anki deck file (.apkg)") s
          else setEstimatedTime (VNum (estimatedSeconds (fileSize f)))
                 (setAnkiFile (Some f) s)
      | study =>
          if negb (endsWith (fileName f) ".pdf")
          then setError (VStr "Please upload a PDF study material") s
          else setStudyMaterial (Some f) s
      end
  end.

(** [handleTagChange]. *)
Definition handleTagChange (v : string) (s : State) : State :=
  let sanitizedTag := sanitizeTag v in
  setCustomTag sanitizedTag s.

(** [handleModelChange]. *)
Definition handleModelChange (v : string) (s : State) : State :=
  setSelectedModel v s.

(** What a handler asks of the browser. *)
Inductive Effect : Type :=
| Post (body : FormData)            (* fetch(requestUrl, {method: "POST", ...}) *)
| SetInterval (data : value)        (* setInterval(..., 2000) *)
| ClearInterval                     (* clearInterval(pollInterval) *)
| Navigate (href : value)           (* window.location.href = ... *)
| SetTimeoutReset.                  (* setTimeout(resetState, 3000) *)

(** The React state and the effects requested so far. *)
Record Env : Type := mkEnv {
  ui : State;
  effects : list Effect
}.

Definition on_ui (f : State -> State) (e : Env) : Env := mkEnv (f (ui e)) (effects e).
Definition emit (x : Effect) (e : Env) : Env := mkEnv (ui e) (effects e ++ [x]).

Section Host.

(** The browser's part: the message of the [TypeError] of reading the
    property [k] of [null], [JSON.parse], and the conversion to a string
    of a value that is not one. *)
Variable typeErrorMessage : string -> string.
Variable JSON_parse : string -> Fetched value.
Variable hostToString : value -> string.

Local Open Scope handler_scope.

Definition prop {S} (v : value) (k : string) : M S value :=
  match get v k with
  | Some x => ret x
  | None => throw (Error (typeErrorMessage k))
  end.

(** [new Error(v)]. *)
Definition newError (v : value) : exn :=
  match v with
  | VStr s => Error s
  | VUndefined => Error ""
  | _ => Error (hostToString v)
  end.

(** [err.message || fallback]. *)
Definition message_or (err : exn) (fallback : string) : value :=
  or_else (VStr (message_of err)) (VStr fallback).

(** The template literal [`${contentType}`] of a string or [null]. *)
Definition show_header (h : option string) : string :=
  match h with
  | Some s => s
  | None => "null"
  end.

Definition header_missing (h : option string) : bool :=
  match h with
  | Some s => negb (truthy (VStr s))
  | None => true
  end.

(** [pollJobStatus], from the moment its [fetch] settles with [r]. *)
Definition pollJobStatus (r : Fetched Response) : M Env bool :=
  try_catch
    (response <- await r ;;
     let contentType := contentType response in
     when (header_missing contentType
           || negb (includes (show_header contentType) "application/json")) then
       throw (Error ("Expected JSON response but got " ++ show_header contentType)) ;;
     when (negb (ok response)) then
       throw (Error "Failed to fetch job status") ;;
     data <- await (json response) ;;
     p <- prop data "progress" ;;
     modify (on_ui (setProgress (or_else p (VNum (num_of_Z 0))))) ;;
     phase <- prop data "current_phase" ;;
     modify (on_ui (setCurrentPhase (or_else phase VNull))) ;;
     st <- prop data "status" ;;
     if is_string st "COMPLETED" then
       modify (on_ui (setSuccess (Some "Processing completed successfully!"))) ;;
       modify (on_ui (setProcessing false)) ;;
       download_url <- prop data "download_url" ;;
       when (truthy download_url) then modify (emit (Navigate download_url)) ;;
       modify (emit SetTimeoutReset) ;;
       ret true
     else
       st' <- prop data "status" ;;
       if is_string st' "FAILED" then
         error_message <- prop data "error_message" ;;
         throw (newError (or_else error_message (VStr "Processing failed")))
       else ret false)
    (fun err =>
       modify (on_ui (setError (message_or err "Error checking job status"))) ;;
       modify (on_ui (setProcessing false)) ;;
       ret true).

(** The interval callback, from the moment the [fetch] of
    [pollJobStatus] settles. *)
Definition intervalCallback_resume (r : Fetched Response) : M Env unit :=
  try_catch
    (completed <- pollJobStatus r ;;
     when completed then modify (emit ClearInterval))
    (fun pollError =>
       modify (emit ClearInterval) ;;
       modify (on_ui (setError (message_or pollError "Error checking job status"))) ;;
       modify (on_ui (setProcessing false))).

(** [handleSubmit] up to its [await fetch(...)]. *)
Definition handleSubmit (e : Env) : Env :=
  let s := ui e in
  match ankiFile s, studyMaterial s with
  | Some a, Some m =>
      if negb (truthy (VStr (customTag s)))
      then on_ui (setError (VStr "Please enter a tag prefix for your cards")) e
      else
        let e :=
          on_ui (fun s =>
            setCurrentPhase VNull
              (setSuccess None
                (setError VNull
                  (setProgress (VNum (num_of_Z 0))
                    (setProcessing true s))))) e in
        let formData :=
          {| anki_file := a; study_material := m;
             custom_tag := customTag s; model := selectedModel s |} in
        emit (Post formData) e
  | _, _ =>
      on_ui (setError (VStr "Please upload both an Anki deck and study material")) e
  end.

(** [handleSubmit] from the moment its [fetch] settles with [r]. *)
Definition handleSubmit_resume (r : Fetched Response) : M Env unit :=
  try_catch
    (response <- await r ;;
     when (negb (ok response)) then
       (errorData <- await (text response) ;;
        try_catch
          (parsedError <- await (JSON_parse errorData) ;;
           e1 <- prop parsedError "error" ;;
           if truthy e1 then throw (newError e1)
           else
             e2 <- prop parsedError "detail" ;;
             throw (newError (or_else e2 (VStr "Processing failed"))))
          (fun _ => throw (Error ("Server error: " ++ errorData)))) ;;
     data <- await (json response) ;;
     task_id <- prop data "task_id" ;;
     modify (on_ui (setJobId task_id)) ;;
     estimated_time <- prop data "estimated_time" ;;
     modify (on_ui (setEstimatedTime estimated_time)) ;;
     task_id' <- prop data "task_id" ;;
     when (truthy task_id') then modify (emit (SetInterval data)))
    (fun err =>
       modify (on_ui
         (setError (message_or err "An error occurred while processing your files"))) ;;
       modify (on_ui (setProcessing false))).

End Host.

End AppJs.

(** ** The embedding scatter plot (src/unnamed/part_002) *)

Module Viz.

Inductive RelevanceType : Type := high | medium | low | document.

Record DataPoint : Type := mkDataPoint {
  cardId : string;
  relevance : RelevanceType;
  embedding : list number;
  similarity : number;
  x : option number;
  y : option number;
  z : option number
}.

Definition hundred : number := num_of_Z 100.

(** [THRESHOLDS]. *)
Definition THRESHOLDS_high : number := Fin (8 # 10).
Definition THRESHOLDS_medium : number := Fin (5 # 10).

(** The entry of [processedData] for a card: the point itself, with its
    three coordinates overwritten. *)
Definition cardPoint (point : DataPoint) : DataPoint :=
  {| cardId := cardId point;
     relevance := relevance point;
     embedding := embedding point;
     similarity := similarity point;
     x := Some (num_mul (similarity point) hundred);
     y := Some (num_mul (similarity point) hundred);
     z := Some (num_mul (similarity point) hundred) |}.

Definition documentPoint (documentEmbedding : list number) : DataPoint :=
  {| cardId := "document";
     relevance := document;
     embedding := documentEmbedding;
     similarity := num_of_Z 1;
     x := Some hundred;
     y := Some hundred;
     z := Some hundred |}.

(** [processedData]; [data] is [None] when the prop is missing. *)
Definition processedData (data : option (list DataPoint))
    (documentEmbedding : list number) : list DataPoint :=
  match data with
  | None => []
  | Some points =>
      if (List.length points =? 0)%nat then []
      else
        let cardData := map cardPoint points in
        cardData ++ [documentPoint documentEmbedding]
  end.

Record ReferenceArea : Type := mkReferenceArea {
  x1 : number;
  x2 : number;
  label : string
}.

(** [renderReferenceAreas]. *)
Definition renderReferenceAreas : list ReferenceArea :=
  [ {| x1 := num_mul THRESHOLDS_high hundred; x2 := hundred;
       label := "High Relevance Zone" |};
    {| x1 := num_mul THRESHOLDS_medium hundred;
       x2 := num_mul THRESHOLDS_high hundred;
       label := "Medium Relevance Zone" |};
    {| x1 := num_of_Z 0; x2 := num_mul THRESHOLDS_medium hundred;
       label := "Low Relevance Zone" |} ].

(** The [domain] of the x axis. *)
Definition xDomain : number * number := (num_of_Z 0, hundred).

(** The points of the scatter series of one band. *)
Definition series (r : RelevanceType) (points : list DataPoint) : list DataPoint :=
  filter (fun d =>
    match relevance d, r with
    | high, high | medium, medium | low, low | document, document => true
    | _, _ => false
    end) points.

Definition relevance_eqb (a b : RelevanceType) : bool :=
  match a, b with
  | high, high | medium, medium | low, low | document, document => true
  | _, _ => false
  end.

(** The updater of the legend's [onClick],
    [(curr) => (curr === value ? null : value)]; [value] is the name of the
    clicked entry in lower case, that is, the relevance of its series.  The
    [onClick] of a card series computes the same from [isSelected]. *)
Definition toggleCluster (value : RelevanceType) (curr : option RelevanceType)
  : option RelevanceType :=
  match curr with
  | Some c => if relevance_eqb c value then None else Some value
  | None => Some value
  end.

(** The [opacity] of the series of [r]:
    [selectedCluster ? (selectedCluster === r ? 1 : 0.3) : 1]. *)
Definition opacity (selectedCluster : option RelevanceType) (r : RelevanceType) : Q :=
  match selectedCluster with
  | Some c => if relevance_eqb c r then 1 else 3 # 10
  | None => 1
  end.

(** The selection after a sequence of legend clicks. *)
Definition clicks (curr : option RelevanceType) (values : list RelevanceType)
  : option RelevanceType :=
  fold_left (fun c v => toggleCluster v c) values curr.

End Viz.

(** ** Vocabulary of the properties *)

(** The extension a file input accepts. *)
Definition expectedExtension (fileType : FileType) : string :=
  match fileType with
  | anki => ".apkg"
  | study => ".pdf"
  end.

(** A double quote, for JSON text. *)
Definition dquote : string := String (ascii_of_nat 34) EmptyString.

(** What is stored in the slot [fileType]. *)
Definition tsx_selection (fileType : FileType) (s : AppTsx.State) : option File :=
  match fileType with
  | anki => AppTsx.ankiFile s
  | study => AppTsx.studyMaterial s
  end.

Definition js_selection (fileType : FileType) (s : AppJs.State) : option File :=
  match fileType with
  | anki => AppJs.ankiFile s
  | study => AppJs.studyMaterial s
  end.

Definition other (fileType : FileType) : FileType :=
  match fileType with
  | anki => study
  | study => anki
  end.



(** A status request that fails at the transport level: the [fetch] is
    rejected, or the body of the response is not JSON. *)
Inductive transport_failure : Fetched Response -> Prop :=
| fetch_rejected (e : exn) : transport_failure (Rejected e)
| body_not_json (response : Response) (e : exn) :
    json response = Rejected e -> transport_failure (Resolved response).

(** The same failures as the variant of src/unnamed/part_001 meets them,
    with the exception each raises inside its [pollJobStatus]: a rejected
    [fetch], a content type that is not JSON, a body that does not
    parse. *)
Definition json_content_type (response : Response) : bool :=
  negb (AppJs.header_missing (contentType response)
        || negb (includes (AppJs.show_header (contentType response)) "application/json")).

Inductive js_transport_failure : Fetched Response -> exn -> Prop :=
| js_fetch_rejected (e : exn) : js_transport_failure (Rejected e) e
| js_not_json (response : Response) :
    json_content_type response = false ->
    js_transport_failure (Resolved response)
      (Error ("Expected JSON response but got "
              ++ AppJs.show_header (contentType response)))
| js_body_not_json (response : Response) (e : exn) :
    json_content_type response = true ->
    ok response = true ->
    json response = Rejected e ->
    js_transport_failure (Resolved response) e.

(** A browser, for the examples. *)
Definition sample_parseFloat (v : value) : number :=
  match v with
  | VNum n => n
  | _ => NaN
  end.

Definition sample_typeErrorMessage (k : string) : string :=
  "Cannot read properties of null (reading '" ++ k ++ "')".

Definition sample_hostToString (v : value) : string := "[object Object]".

Definition sample_JSON_parse (s : string) : Fetched value :=
  Rejected (Error "Unexpected token").

(** A response with status 200 and a JSON body. *)
Definition json_response (data : value) : Fetched Response :=
  Resolved {| ok := true; status := 200;
              contentType := Some "application/json";
              text := Rejected (Error "body stream already read");
              json := Resolved data |}.

(** The user picks a deck and a PDF, types a tag, picks the large model
    and presses the button; the server answers with a job id and, in the
    same body, the statistics; the interval fires once. *)
Definition clicked : list AppTsx.Event :=
  [ AppTsx.FileChosen anki (Some (mkFile "deck.apkg" 1000));
    AppTsx.FileChosen study (Some (mkFile "notes.pdf" 2000));
    AppTsx.TagTyped "My Tag!";
    AppTsx.ModelSelected "text-embedding-3-large";
    AppTsx.ButtonClicked ].

Definition submitted : list AppTsx.Event :=
  clicked ++
  [ AppTsx.SubmitSettled
      (json_response (VObj [("task_id", VStr "job-1"); ("statistics", VObj [])]));
    AppTsx.Tick 0 ].

(** The body a server sends for a deck of ten cards, every field of
    [ProcessingResponse] present; no chart was produced. *)
Definition sample_results : value :=
  VObj [("status", VStr "success");
        ("message", VStr "Deck processed");
        ("task_id", VStr "job-1");
        ("download_url", VStr "/api/download/job-1/");
        ("statistics",
         VObj [("total_cards", VNum (num_of_Z 10));
               ("high_relevance", VNum (num_of_Z 3));
               ("medium_relevance", VNum (num_of_Z 4));
               ("low_relevance", VNum (num_of_Z 3));
               ("deck_info",
                VObj [("total_notes", VNum (num_of_Z 10));
                      ("total_cards", VNum (num_of_Z 10));
                      ("deck_name", VStr "Biology");
                      ("media_files", VNum (num_of_Z 0))])]);
        ("visualizations",
         VObj [("relevance_distribution", VNull);
               ("embedding_visualization", VNull)]);
        ("processing_metrics",
         VObj [("embedding_model", VStr "text-embedding-3-large");
               ("processing_time", VNum (num_of_Z 12));
               ("pdf_pages", VNum (num_of_Z 8));
               ("chunks_processed", VNum (num_of_Z 40))])].

(** A whole run: the submission of [clicked] is answered with
    [sample_results], the interval fires once and the status request is
    answered with "COMPLETED". *)
Definition completed_run : list AppTsx.Event :=
  clicked ++
  [ AppTsx.SubmitSettled (json_response sample_results);
    AppTsx.Tick 0;
    AppTsx.PollSettled 0 (json_response (VObj [("status", VStr "COMPLETED")])) ].

(** The same moment in the variant of src/unnamed/part_001: a submission
    is being processed. *)
Definition js_processing : AppJs.Env :=
  {| AppJs.ui := AppJs.setProcessing true AppJs.initialState;
     AppJs.effects := [] |}.

(** The answer of a server that refuses a deck: status 400 and a JSON
    body whose [error] field says why. *)
Definition refusal_text : string :=
  "{" ++ dquote ++ "error" ++ dquote ++ ": " ++ dquote ++ "bad deck" ++ dquote ++ "}".

Definition refusal : Response :=
  {| ok := false; status := 400;
     contentType := Some "application/json";
     text := Resolved refusal_text;
     json := Resolved (VObj [("error", VStr "bad deck")]) |}.



(** A card of the scatter plot, for the examples. *)
Definition sample_card : Viz.DataPoint :=
  {| Viz.cardId := "card-1"; Viz.relevance := Viz.medium;
     Viz.embedding := []; Viz.similarity := Fin (65 # 100);
     Viz.x := None; Viz.y := None; Viz.z := None |}.

(** The bounds of a drawn zone are the numbers [lo] and [hi]. *)
Definition zone_is (a : Viz.ReferenceArea) (lo hi : Z) : Prop :=
  num_eqb (Viz.x1 a) (num_of_Z lo) = true /\ num_eqb (Viz.x2 a) (num_of_Z hi) = true.

Section Reachability.

Variable parseFloat : value -> number.
Variable typeErrorMessage : string -> string.

(** The worlds the mounted component of src/src/App.tsx can be in. *)
Definition reachable (w : AppTsx.World) : Prop :=
  exists events : list AppTsx.Event,
    AppTsx.run parseFloat typeErrorMessage AppTsx.initialWorld events = w.

End Reachability.

(** What holds of every reachable world. *)
Record invariant (w : AppTsx.World) : Prop := mkInvariant {
  inv_tag : matches_tag_regex (AppTsx.customTag (AppTsx.ui w)) = true;
  inv_results :
    AppTsx.showResults (AppTsx.ui w) = true -> AppTsx.processing (AppTsx.ui w) = false;
  inv_intervals :
    forall j d, In (j, d) (AppTsx.intervals w) ->
      (j < AppTsx.nextInterval w)%nat /\ exists job, get d "task_id" = Some job;
  inv_pending :
    forall j d, In (j, d) (AppTsx.pendingPolls w) -> (j < AppTsx.nextInterval w)%nat
}.

(** What one event can do to the intervals, to the status requests in
    flight and to the log of the status requests issued. *)
Inductive footprint (w w' : AppTsx.World) : Prop :=
| fp_shrink :
    (forall x, In x (AppTsx.intervals w') -> In x (AppTsx.intervals w)) ->
    (forall i, AppTsx.interval_data i (AppTsx.intervals w) = None ->
               AppTsx.interval_data i (AppTsx.intervals w') = None) ->
    AppTsx.nextInterval w' = AppTsx.nextInterval w ->
    (forall x, In x (AppTsx.pendingPolls w') -> In x (AppTsx.pendingPolls w)) ->
    AppTsx.statusRequests w' = AppTsx.statusRequests w ->
    footprint w w'
| fp_setInterval (data job : value) :
    get data "task_id" = Some job ->
    AppTsx.intervals w' = (AppTsx.intervals w ++ [(AppTsx.nextInterval w, data)])%list ->
    AppTsx.nextInterval w' = S (AppTsx.nextInterval w) ->
    AppTsx.pendingPolls w' = AppTsx.pendingPolls w ->
    AppTsx.statusRequests w' = AppTsx.statusRequests w ->
    footprint w w'
| fp_fetchStatus (i : nat) (data job : value) :
    AppTsx.interval_data i (AppTsx.intervals w) = Some data ->
    get data "task_id" = Some job ->
    AppTsx.intervals w' = AppTsx.intervals w ->
    AppTsx.nextInterval w' = AppTsx.nextInterval w ->
    AppTsx.pendingPolls w' = (AppTsx.pendingPolls w ++ [(i, data)])%list ->
    AppTsx.statusRequests w' = (AppTsx.statusRequests w ++ [(i, job)])%list ->
    footprint w w'.


(** ** Vocabulary of the further properties *)

(** What a POST of the process-deck endpoint should carry. *)
Definition well_formed_post (body : FormData) : Prop :=
  endsWith (fileName (anki_file body)) ".apkg" = true /\
  endsWith (fileName (study_material body)) ".pdf" = true /\
  custom_tag body <> "" /\
  matches_tag_regex (custom_tag body) = true.

(** What holds of the React state of src/src/App.tsx in every reachable
    world. *)
Record ui_invariant (s : AppTsx.State) : Prop := mkUiInvariant {
  ui_deck :
    forall f, AppTsx.ankiFile s = Some f -> endsWith (fileName f) ".apkg" = true;
  ui_study :
    forall f, AppTsx.studyMaterial s = Some f -> endsWith (fileName f) ".pdf" = true;
  ui_tag : matches_tag_regex (AppTsx.customTag s) = true;
  ui_busy :
    AppTsx.processing s = true ->
    AppTsx.success s = None /\ AppTsx.showResults s = false;
  ui_time :
    forall t, AppTsx.estimatedTime s = Some t -> num_geb t (num_of_Z 0) = true
}.

(** What one event can do to the requests and the intervals, POSTs
    included. *)
Inductive env_step (w w' : AppTsx.World) : Prop :=
| es_shrink :
    (forall x, In x (AppTsx.intervals w') -> In x (AppTsx.intervals w)) ->
    AppTsx.nextInterval w' = AppTsx.nextInterval w ->
    (forall x, In x (AppTsx.pendingPolls w') -> In x (AppTsx.pendingPolls w)) ->
    (AppTsx.pendingSubmits w' <= AppTsx.pendingSubmits w)%nat ->
    AppTsx.statusRequests w' = AppTsx.statusRequests w ->
    AppTsx.posts w' = AppTsx.posts w ->
    env_step w w'
| es_post (a m : File) :
    AppTsx.ankiFile (AppTsx.ui w) = Some a ->
    AppTsx.studyMaterial (AppTsx.ui w) = Some m ->
    AppTsx.customTag (AppTsx.ui w) <> "" ->
    AppTsx.intervals w' = AppTsx.intervals w ->
    AppTsx.nextInterval w' = AppTsx.nextInterval w ->
    AppTsx.pendingPolls w' = AppTsx.pendingPolls w ->
    AppTsx.pendingSubmits w' = S (AppTsx.pendingSubmits w) ->
    AppTsx.statusRequests w' = AppTsx.statusRequests w ->
    AppTsx.posts w' =
      (AppTsx.posts w ++
       [ {| anki_file := a; study_material := m;
            custom_tag := AppTsx.customTag (AppTsx.ui w);
            model := AppTsx.selectedModel (AppTsx.ui w) |} ])%list ->
    env_step w w'
| es_setInterval (data job : value) :
    get data "task_id" = Some job ->
    truthy job = true ->
    AppTsx.intervals w' = (AppTsx.intervals w ++ [(AppTsx.nextInterval w, data)])%list ->
    AppTsx.nextInterval w' = S (AppTsx.nextInterval w) ->
    AppTsx.pendingPolls w' = AppTsx.pendingPolls w ->
    S (AppTsx.pendingSubmits w') = AppTsx.pendingSubmits w ->
    AppTsx.statusRequests w' = AppTsx.statusRequests w ->
    AppTsx.posts w' = AppTsx.posts w ->
    env_step w w'
| es_fetchStatus (i : nat) (data job : value) :
    In (i, data) (AppTsx.intervals w) ->
    get data "task_id" = Some job ->
    AppTsx.intervals w' = AppTsx.intervals w ->
    AppTsx.nextInterval w' = AppTsx.nextInterval w ->
    AppTsx.pendingPolls w' = (AppTsx.pendingPolls w ++ [(i, data)])%list ->
    AppTsx.pendingSubmits w' = AppTsx.pendingSubmits w ->
    AppTsx.statusRequests w' = (AppTsx.statusRequests w ++ [(i, job)])%list ->
    AppTsx.posts w' = AppTsx.posts w ->
    env_step w w'.

(** What holds of the requests and the intervals of every reachable
    world. *)
Record env_invariant (w : AppTsx.World) : Prop := mkEnvInvariant {
  env_started :
    (AppTsx.nextInterval w + AppTsx.pendingSubmits w <= List.length (AppTsx.posts w))%nat;
  env_captured :
    forall i d,
      In (i, d) (AppTsx.intervals w) \/ In (i, d) (AppTsx.pendingPolls w) ->
      (i < AppTsx.nextInterval w)%nat /\
      exists job, get d "task_id" = Some job /\ truthy job = true;
  env_unique :
    forall i d d',
      In (i, d) (AppTsx.intervals w) \/ In (i, d) (AppTsx.pendingPolls w) ->
      In (i, d') (AppTsx.intervals w) \/ In (i, d') (AppTsx.pendingPolls w) ->
      d = d';
  env_requests :
    forall i job, In (i, job) (AppTsx.statusRequests w) ->
      (i < AppTsx.nextInterval w)%nat /\ truthy job = true;
  env_same_job :
    forall i d job,
      In (i, d) (AppTsx.intervals w) \/ In (i, d) (AppTsx.pendingPolls w) ->
      In (i, job) (AppTsx.statusRequests w) ->
      get d "task_id" = Some job;
  env_one_job :
    forall i job job',
      In (i, job) (AppTsx.statusRequests w) ->
      In (i, job') (AppTsx.statusRequests w) ->
      job = job'
}.

(** A world that is processing with nothing left to end it: no interval,
    no request in flight. *)
Definition stalled (w : AppTsx.World) : Prop :=
  AppTsx.processing (AppTsx.ui w) = true /\
  AppTsx.intervals w = [] /\
  AppTsx.pendingPolls w = [] /\
  AppTsx.pendingSubmits w = 0%nat.

(** A status response of a job that is still running. *)
Definition running_at_42 : value :=
  VObj [("status", VStr "PROCESSING");
        ("progress_data",
         VObj [("progress", VNum (num_of_Z 42)); ("phase", VStr "Embedding")])].

(** The status "COMPLETED" of the variant of src/unnamed/part_001. *)
Definition completed_status (data : value) : bool :=
  is_string (AppTsx.opt_get data "status") "COMPLETED".

(** The effects of a completed job in that variant. *)
Definition completion_effects (data : value) : list AppJs.Effect :=
  ((if truthy (AppTsx.opt_get data "download_url")
    then [AppJs.Navigate (AppTsx.opt_get data "download_url")]
    else []) ++ [AppJs.SetTimeoutReset; AppJs.ClearInterval])%list.

(** ** Strings *)

Local Open Scope nat_scope.

Lemma length_append (s t : string) :
  String.length (s ++ t) = String.length s + String.length t.
Proof.
  induction s as [|c s IH]; simpl; [reflexivity | now rewrite IH].
Qed.

Lemma substring_all (s : string) : substring 0 (String.length s) s = s.
Proof.
  induction s as [|c s IH]; simpl; [reflexivity | now rewrite IH].
Qed.

Lemma substring_append_right (p s : string) :
  substring (String.length p) (String.length s) (p ++ s) = s.
Proof.
  induction p as [|c p IH]; simpl; [apply substring_all | exact IH].
Qed.

Lemma substring_split (s : string) (k : nat) :
  k <= String.length s ->
  s = substring 0 k s ++ substring k (String.length s - k) s.
Proof.
  revert k; induction s as [|c s IH]; intros k Hk; simpl in *.
  - destruct k; reflexivity.
  - destruct k as [|k]; simpl.
    + now rewrite substring_all.
    + f_equal. apply IH. lia.
Qed.

(** [endsWith] holds exactly of the strings that are some prefix followed
    by the suffix. *)
Lemma endsWith_spec (s suffix : string) :
  endsWith s suffix = true <-> exists p, s = p ++ suffix.
Proof.
  unfold endsWith; split.
  - intros H. apply andb_true_iff in H as [Hle Heq].
    apply Nat.leb_le in Hle. apply String.eqb_eq in Heq.
    exists (substring 0 (String.length s - String.length suffix) s).
    pose proof (substring_split s (String.length s - String.length suffix)) as Hs.
    replace (String.length s - (String.length s - String.length suffix))
      with (String.length suffix) in Hs by lia.
    rewrite Heq in Hs. apply Hs. lia.
  - intros [p ->]. rewrite length_append. apply andb_true_iff; split.
    + apply Nat.leb_le. lia.
    + replace (String.length p + String.length suffix - String.length suffix)
        with (String.length p) by lia.
      rewrite substring_append_right. apply String.eqb_refl.
Qed.

Lemma endsWith_false (s suffix : string) :
  (~ exists p, s = p ++ suffix) -> endsWith s suffix = false.
Proof.
  intros H. destruct (endsWith s suffix) eqn:E; [|reflexivity].
  exfalso. apply H. now apply endsWith_spec.
Qed.

(** ** The sanitizer *)

Lemma is_alnum_tag_char (c : ascii) : is_alnum c = true -> is_tag_char c = true.
Proof.
  unfold is_tag_char. intros ->. reflexivity.
Qed.

Lemma sanitizeTag_matches (s : string) : matches_tag_regex (sanitizeTag s) = true.
Proof.
  induction s as [|c s IH]; simpl; [reflexivity|].
  rewrite IH, andb_true_r.
  destruct (is_alnum c) eqn:E; [now apply is_alnum_tag_char | reflexivity].
Qed.

Lemma sanitizeTag_length (s : string) :
  String.length (sanitizeTag s) = String.length s.
Proof.
  induction s as [|c s IH]; simpl; [reflexivity | now rewrite IH].
Qed.

Lemma sanitizeTag_get (s : string) (i : nat) :
  String.get i (sanitizeTag s) =
  option_map (fun c => if is_alnum c then c else "_"%char) (String.get i s).
Proof.
  revert i; induction s as [|c s IH]; intros i; simpl; [reflexivity|].
  destruct i as [|i]; simpl; [reflexivity | apply IH].
Qed.

(** C7. The tag-prefix sanitizer that [handleTagChange] applies to the
    value of every change event keeps the length of its input, leaves
    every character of [a-zA-Z0-9] where it is and puts an underscore in
    the place of every other character; the value it stores is the
    sanitized one, in both variants of the component; and "My Tag!"
    becomes "My_Tag_". *)
Theorem C7_sanitizer_replaces_non_alphanumerics :
  (forall s : string,
      String.length (sanitizeTag s) = String.length s /\
      forall (i : nat) (c : ascii),
        String.get i s = Some c ->
        (is_alnum c = true -> String.get i (sanitizeTag s) = Some c) /\
        (is_alnum c = false -> String.get i (sanitizeTag s) = Some "_"%char)) /\
  (forall (v : string) (s : AppTsx.State),
      AppTsx.customTag (AppTsx.handleTagChange v s) = sanitizeTag v) /\
  (forall (v : string) (s : AppJs.State),
      AppJs.customTag (AppJs.handleTagChange v s) = sanitizeTag v) /\
  sanitizeTag "My Tag!" = "My_Tag_".
Proof.
  repeat split.
  - apply sanitizeTag_length.
  - intros Hc. rewrite sanitizeTag_get, H. simpl. now rewrite Hc.
  - intros Hc. rewrite sanitizeTag_get, H. simpl. now rewrite Hc.
Qed.

Lemma C7_sanitizer_witness :
  String.get 2 "My Tag!" = Some " "%char /\
  String.get 2 (sanitizeTag "My Tag!") = Some "_"%char.
Proof.
  split; [reflexivity|].
  apply (proj2 (proj1 C7_sanitizer_replaces_non_alphanumerics "My Tag!") 2 " "%char);
    reflexivity.
Defined.

(** ** File selection *)

Lemma tsx_upload_rejected (f : File) (fileType : FileType) (s : AppTsx.State) :
  endsWith (fileName f) (expectedExtension fileType) = false ->
  exists msg,
    AppTsx.handleFileUpload (Some f) fileType s =
    AppTsx.setError (VStr msg) (AppTsx.setSuccess None (AppTsx.setError VNull s)) /\
    msg <> "".
Proof.
  intros H. unfold AppTsx.handleFileUpload.
  destruct fileType; simpl in H; rewrite H; simpl;
    eexists; (split; [reflexivity | discriminate]).
Qed.

Lemma js_upload_rejected (f : File) (fileType : FileType) (s : AppJs.State) :
  endsWith (fileName f) (expectedExtension fileType) = false ->
  exists msg,
    AppJs.handleFileUpload (Some f) fileType s =
    AppJs.setError (VStr msg) (AppJs.setSuccess None (AppJs.setError VNull s)) /\
    msg <> "".
Proof.
  intros H. unfold AppJs.handleFileUpload.
  destruct fileType; simpl in H; rewrite H; simpl;
    eexists; (split; [reflexivity | discriminate]).
Qed.

(** C5. In both variants of the component, a change event of a file
    input whose file name is not some prefix followed by the expected
    extension (".apkg" for the deck, ".pdf" for the study material) makes
    [handleFileUpload] set a non-empty error message and leave both stored
    selections as they were; a file whose name ends with the extension
    becomes the selection of its slot, the other slot is untouched and the
    error is null. *)
Theorem C5_file_upload_checks_extension :
  forall (f : File) (fileType : FileType),
    (forall s : AppTsx.State,
        let s' := AppTsx.handleFileUpload (Some f) fileType s in
        ((~ exists p, fileName f = p ++ expectedExtension fileType) ->
         (exists msg, AppTsx.error s' = VStr msg /\ msg <> "") /\
         AppTsx.ankiFile s' = AppTsx.ankiFile s /\
         AppTsx.studyMaterial s' = AppTsx.studyMaterial s) /\
        ((exists p, fileName f = p ++ expectedExtension fileType) ->
         tsx_selection fileType s' = Some f /\
         tsx_selection (other fileType) s' = tsx_selection (other fileType) s /\
         AppTsx.error s' = VNull)) /\
    (forall s : AppJs.State,
        let s' := AppJs.handleFileUpload (Some f) fileType s in
        ((~ exists p, fileName f = p ++ expectedExtension fileType) ->
         (exists msg, AppJs.error s' = VStr msg /\ msg <> "") /\
         AppJs.ankiFile s' = AppJs.ankiFile s /\
         AppJs.studyMaterial s' = AppJs.studyMaterial s) /\
        ((exists p, fileName f = p ++ expectedExtension fileType) ->
         js_selection fileType s' = Some f /\
         js_selection (other fileType) s' = js_selection (other fileType) s /\
         AppJs.error s' = VNull)).
Proof.
  intros f fileType; split; intros s s'; split.
  - intros H. apply endsWith_false in H.
    destruct (tsx_upload_rejected f fileType s H) as [msg [E Hm]].
    subst s'. rewrite E. simpl. split; [now exists msg | split; reflexivity].
  - intros H. apply endsWith_spec in H. subst s'.
    unfold AppTsx.handleFileUpload.
    destruct fileType; simpl in H; rewrite H; simpl; repeat split.
  - intros H. apply endsWith_false in H.
    destruct (js_upload_rejected f fileType s H) as [msg [E Hm]].
    subst s'. rewrite E. simpl. split; [now exists msg | split; reflexivity].
  - intros H. apply endsWith_spec in H. subst s'.
    unfold AppJs.handleFileUpload.
    destruct fileType; simpl in H; rewrite H; simpl; repeat split.
Qed.

Lemma C5_file_upload_witness :
  (AppTsx.ankiFile
     (AppTsx.handleFileUpload (Some (mkFile "deck.txt" 10)) anki AppTsx.initialState)
   = None /\
   exists msg,
     AppTsx.error
       (AppTsx.handleFileUpload (Some (mkFile "deck.txt" 10)) anki AppTsx.initialState)
     = VStr msg /\ msg <> "") /\
  AppTsx.ankiFile
    (AppTsx.handleFileUpload (Some (mkFile "deck.apkg" 10)) anki AppTsx.initialState)
  = Some (mkFile "deck.apkg" 10).
Proof.
  split.
  - assert (H : ~ exists p, fileName (mkFile "deck.txt" 10) = p ++ expectedExtension anki).
    { intros Hp. apply endsWith_spec in Hp. vm_compute in Hp. discriminate. }
    destruct (proj1 (proj1 (C5_file_upload_checks_extension (mkFile "deck.txt" 10) anki)
                       AppTsx.initialState) H) as [Hmsg [Ha _]].
    split; [exact Ha | exact Hmsg].
  - apply (proj2 (proj1 (C5_file_upload_checks_extension (mkFile "deck.apkg" 10) anki)
                    AppTsx.initialState)).
    exists "deck". reflexivity.
Defined.

(** ** Validation of a submission *)

(** C4. In both variants, [handleSubmit] invoked with the deck file
    absent, the study file absent or the tag prefix empty only sets a
    (non-empty) validation error: nothing else of the state changes, so the
    processing flag is not set, and no request is made, neither the POST to
    the process-deck endpoint nor any other. *)
Theorem C4_submit_validation_blocks_network :
  (forall w : AppTsx.World,
      AppTsx.ankiFile (AppTsx.ui w) = None \/
      AppTsx.studyMaterial (AppTsx.ui w) = None \/
      AppTsx.customTag (AppTsx.ui w) = "" ->
      exists msg,
        msg <> "" /\
        AppTsx.handleSubmit w = AppTsx.on_ui (AppTsx.setError (VStr msg)) w /\
        AppTsx.posts (AppTsx.handleSubmit w) = AppTsx.posts w /\
        AppTsx.pendingSubmits (AppTsx.handleSubmit w) = AppTsx.pendingSubmits w /\
        AppTsx.statusRequests (AppTsx.handleSubmit w) = AppTsx.statusRequests w /\
        AppTsx.processing (AppTsx.ui (AppTsx.handleSubmit w)) =
        AppTsx.processing (AppTsx.ui w)) /\
  (forall e : AppJs.Env,
      AppJs.ankiFile (AppJs.ui e) = None \/
      AppJs.studyMaterial (AppJs.ui e) = None \/
      AppJs.customTag (AppJs.ui e) = "" ->
      exists msg,
        msg <> "" /\
        AppJs.handleSubmit e = AppJs.on_ui (AppJs.setError (VStr msg)) e /\
        AppJs.effects (AppJs.handleSubmit e) = AppJs.effects e /\
        AppJs.processing (AppJs.ui (AppJs.handleSubmit e)) =
        AppJs.processing (AppJs.ui e)).
Proof.
  split.
  - intros w H. unfold AppTsx.handleSubmit.
    destruct (AppTsx.ankiFile (AppTsx.ui w)) as [a|] eqn:Ea;
      [destruct (AppTsx.studyMaterial (AppTsx.ui w)) as [m|] eqn:Em|].
    + destruct H as [H|[H|H]]; try discriminate. rewrite H. simpl.
      eexists; split; [|repeat split]; discriminate.
    + eexists; split; [|repeat split]; discriminate.
    + eexists; split; [|repeat split]; discriminate.
  - intros e H. unfold AppJs.handleSubmit.
    destruct (AppJs.ankiFile (AppJs.ui e)) as [a|] eqn:Ea;
      [destruct (AppJs.studyMaterial (AppJs.ui e)) as [m|] eqn:Em|].
    + destruct H as [H|[H|H]]; try discriminate. rewrite H. simpl.
      eexists; split; [|repeat split]; discriminate.
    + eexists; split; [|repeat split]; discriminate.
    + eexists; split; [|repeat split]; discriminate.
Qed.

Lemma C4_submit_validation_witness :
  AppTsx.posts (AppTsx.handleSubmit AppTsx.initialWorld) = [] /\
  AppTsx.processing (AppTsx.ui (AppTsx.handleSubmit AppTsx.initialWorld)) = false.
Proof.
  destruct (proj1 C4_submit_validation_blocks_network AppTsx.initialWorld)
    as [msg [_ [_ [Hp [_ [_ Hproc]]]]]].
  - left. reflexivity.
  - split; [exact Hp | exact Hproc].
Defined.

(** ** The polling loop of src/src/App.tsx *)

Lemma truthy_get (v : value) (k : string) :
  truthy v = true -> get v k = Some (AppTsx.opt_get v k).
Proof.
  destruct v; simpl; try discriminate; reflexivity.
Qed.

Lemma get_opt_get (v : value) (k k' : string) (x : value) :
  get v k = Some x -> get v k' = Some (AppTsx.opt_get v k').
Proof.
  destruct v; simpl; try discriminate; reflexivity.
Qed.

Lemma opt_get_of_get (v : value) (k : string) (x : value) :
  get v k = Some x -> AppTsx.opt_get v k = x.
Proof.
  unfold AppTsx.opt_get. now intros ->.
Qed.


Ltac unfold_handler :=
  cbv [AppTsx.pollJobStatus AppTsx.prop AppJs.pollJobStatus AppJs.prop
       try_catch bind await ret modify throw zoom].

Ltac split_ifs :=
  repeat match goal with
  | H : truthy ?v = true |- context [get ?v ?k] => rewrite (truthy_get v k H)
  | |- context [if ?c then _ else _] => destruct c eqn:?
  end.

Section Flow.

Variable parseFloat : value -> number.
Variable typeErrorMessage : string -> string.

Local Abbreviation poll := (AppTsx.pollJobStatus parseFloat typeErrorMessage).
Local Abbreviation step := (AppTsx.step parseFloat typeErrorMessage).
Local Abbreviation run := (AppTsx.run parseFloat typeErrorMessage).
Local Abbreviation resume :=
  (AppTsx.intervalCallback_resume parseFloat typeErrorMessage).

(** [pollJobStatus] never throws to its caller, touches neither the tag
    prefix nor the model, and shows results only with processing off. *)
Lemma poll_frame (r : Fetched Response) (s : AppTsx.State) :
  exists s' b,
    poll r s = (s', Ok b) /\
    AppTsx.customTag s' = AppTsx.customTag s /\
    AppTsx.selectedModel s' = AppTsx.selectedModel s /\
    ((AppTsx.showResults s = true -> AppTsx.processing s = false) ->
     AppTsx.showResults s' = true -> AppTsx.processing s' = false).
Proof.
  unfold_handler.
  destruct r as [e|response]; [eauto 10|].
  destruct (json response) as [e|data]; [eauto 10|].
  destruct (get data "progress_data") as [pd|] eqn:Hpd; [|eauto 10].
  repeat match goal with
  | |- context [get data ?k] => rewrite (get_opt_get data _ k pd Hpd)
  end.
  rewrite ?(opt_get_of_get _ _ _ Hpd).
  split_ifs; simpl; eauto 10.
Qed.

(** A failure at the transport level leaves the state as it is and makes
    [pollJobStatus] return [false]. *)
Lemma poll_transport_failure (r : Fetched Response) (s : AppTsx.State) :
  transport_failure r -> poll r s = (s, Ok false).
Proof.
  intros [e|response e H]; unfold_handler; [reflexivity|].
  now rewrite H.
Qed.



End Flow.

(** ** The transition system of src/src/App.tsx *)

Lemma In_settle {A} (n : nat) (l : list A) (x : A) :
  In x (firstn n l ++ skipn (S n) l)%list -> In x l.
Proof.
  intros H. apply in_app_or in H as [H|H].
  - rewrite <- (firstn_skipn n l). apply in_or_app. now left.
  - rewrite <- (firstn_skipn (S n) l). apply in_or_app. now right.
Qed.

Lemma interval_data_In (i : nat) (l : list (nat * value)) (d : value) :
  AppTsx.interval_data i l = Some d -> In (i, d) l.
Proof.
  induction l as [|[j d'] l IH]; simpl; [discriminate|].
  destruct (j =? i) eqn:E.
  - apply Nat.eqb_eq in E. intros [= ->]. left. now subst.
  - intros H. right. now apply IH.
Qed.

Lemma interval_data_cleared (i j : nat) (l : list (nat * value)) :
  AppTsx.interval_data i l = None ->
  AppTsx.interval_data i (filter (fun p => negb (fst p =? j)) l) = None.
Proof.
  induction l as [|[k d] l IH]; simpl; [reflexivity|].
  destruct (k =? i) eqn:E; [discriminate|]. intros H.
  destruct (negb (k =? j)); simpl; [rewrite E|]; now apply IH.
Qed.



Lemma In_filter_weaken {A} (f : A -> bool) (l : list A) (x : A) :
  In x (filter f l) -> In x l.
Proof.
  intros H. now apply filter_In in H.
Qed.

Ltac unfold_world :=
  cbv [AppTsx.exec AppTsx.handleSubmit_resume AppTsx.intervalCallback
       AppTsx.intervalCallback_resume AppTsx.pollFailed AppTsx.prop
       try_catch bind await ret modify throw zoom].

Section Transitions.

Variable parseFloat : value -> number.
Variable typeErrorMessage : string -> string.

Local Abbreviation poll := (AppTsx.pollJobStatus parseFloat typeErrorMessage).
Local Abbreviation step := (AppTsx.step parseFloat typeErrorMessage).
Local Abbreviation run := (AppTsx.run parseFloat typeErrorMessage).

Lemma step_footprint (w : AppTsx.World) (e : AppTsx.Event) : footprint w (step w e).
Proof.
  destruct e as [ft f|v|v| | |r|i|n r]; unfold AppTsx.step.
  - now apply fp_shrink.
  - now apply fp_shrink.
  - now apply fp_shrink.
  - destruct (AppTsx.processing (AppTsx.ui w)); [now apply fp_shrink|].
    unfold AppTsx.handleButtonClick, AppTsx.handleSubmit.
    repeat match goal with
    | |- context [if ?c then _ else _] => destruct c
    | |- context [match ?x with Some _ => _ | None => _ end] => destruct x
    end; now apply fp_shrink.
  - destruct (AppTsx.resultsRendered (AppTsx.ui w)); now apply fp_shrink.
  - destruct (AppTsx.pendingSubmits w); [now apply fp_shrink|].
    unfold_world. destruct r as [err|response]; simpl; [now apply fp_shrink|].
    destruct (ok response); simpl; [|now apply fp_shrink].
    destruct (json response) as [err|data]; simpl; [now apply fp_shrink|].
    destruct (get data "task_id") as [job|] eqn:Ejob; simpl; [|now apply fp_shrink].
    destruct (truthy job); simpl; [|now apply fp_shrink].
    now apply (fp_setInterval _ _ data job).
  - destruct (AppTsx.interval_data i (AppTsx.intervals w)) as [data|] eqn:Ei;
      [|now apply fp_shrink].
    unfold_world. destruct (get data "task_id") as [job|] eqn:Ejob; simpl.
    + now apply (fp_fetchStatus _ _ i data job).
    + apply fp_shrink; simpl; eauto using In_filter_weaken, interval_data_cleared.
  - destruct (nth_error (AppTsx.pendingPolls w) n) as [[i data]|] eqn:En;
      [|now apply fp_shrink].
    destruct (poll_frame parseFloat typeErrorMessage r (AppTsx.ui (AppTsx.settlePoll n w)))
      as (s' & b & E & _).
    unfold_world. rewrite E. destruct b; simpl;
      apply fp_shrink; simpl;
        eauto using In_filter_weaken, interval_data_cleared, In_settle.
Qed.

Lemma step_ui (w : AppTsx.World) (e : AppTsx.Event) :
  (matches_tag_regex (AppTsx.customTag (AppTsx.ui w)) = true ->
   matches_tag_regex (AppTsx.customTag (AppTsx.ui (step w e))) = true) /\
  ((AppTsx.showResults (AppTsx.ui w) = true -> AppTsx.processing (AppTsx.ui w) = false) ->
   AppTsx.showResults (AppTsx.ui (step w e)) = true ->
   AppTsx.processing (AppTsx.ui (step w e)) = false).
Proof.
  destruct e as [ft f|v|v| | |r|i|n r]; unfold AppTsx.step.
  - unfold AppTsx.handleFileUpload.
    destruct f as [f|]; [destruct ft|];
      repeat match goal with
      | |- context [if ?c then _ else _] => destruct c
      end; simpl; auto.
  - simpl. split; [intros _; apply sanitizeTag_matches | auto].
  - simpl. auto.
  - destruct (AppTsx.processing (AppTsx.ui w)) eqn:Ep; [rewrite Ep; auto|].
    unfold AppTsx.handleButtonClick, AppTsx.handleSubmit.
    repeat match goal with
    | |- context [if ?c then _ else _] => destruct c
    | |- context [match ?x with Some _ => _ | None => _ end] => destruct x
    end; simpl; rewrite ?Ep; auto; split; auto; intros; discriminate.
  - destruct (AppTsx.resultsRendered (AppTsx.ui w)); [|auto].
    simpl. split; [reflexivity | intros; discriminate].
  - destruct (AppTsx.pendingSubmits w); [auto|].
    unfold_world. destruct r as [err|response]; simpl; [auto|].
    destruct (ok response); simpl; [|auto].
    destruct (json response) as [err|data]; simpl; [auto|].
    destruct (get data "task_id") as [job|] eqn:Ejob; simpl; [|auto].
    destruct (truthy job); simpl; auto.
  - destruct (AppTsx.interval_data i (AppTsx.intervals w)) as [data|] eqn:Ei; [|auto].
    unfold_world. destruct (get data "task_id") as [job|] eqn:Ejob; simpl; auto.
  - destruct (nth_error (AppTsx.pendingPolls w) n) as [[i data]|] eqn:En; [|auto].
    destruct (poll_frame parseFloat typeErrorMessage r (AppTsx.ui (AppTsx.settlePoll n w)))
      as (s' & b & E & Htag & _ & Hres).
    unfold_world. rewrite E. simpl in Htag, Hres.
    destruct b; simpl; rewrite Htag; auto.
Qed.

Lemma step_invariant (w : AppTsx.World) (e : AppTsx.Event) :
  invariant w -> invariant (step w e).
Proof.
  intros [Htag Hres Hint Hpend].
  destruct (step_ui w e) as [Htag' Hres'].
  constructor; [auto | auto | |];
    destruct (step_footprint w e)
      as [Hsub Hnone Hnext Hpsub Hreq
         | data job Hjob Hi Hnext Hp Hreq
         | i data job Hi Hjob Hsame Hnext Hp Hreq].
  - intros j d H. rewrite Hnext. apply Hint, Hsub, H.
  - intros j d H. rewrite Hi in H. rewrite Hnext.
    apply in_app_or in H as [H|[[= <- <-]|[]]].
    + destruct (Hint j d H) as [Hlt Hex]. split; [lia | exact Hex].
    + split; [lia | now exists job].
  - intros j d H. rewrite Hsame in H. rewrite Hnext. auto.
  - intros j d H. rewrite Hnext. apply (Hpend j d), Hpsub, H.
  - intros j d H. rewrite Hp in H. rewrite Hnext.
    specialize (Hpend j d H). lia.
  - intros j d H. rewrite Hp in H. rewrite Hnext.
    apply in_app_or in H as [H|[[= <- <-]|[]]]; [now apply (Hpend j d)|].
    apply interval_data_In in Hi. now apply (Hint i data).
Qed.

Lemma initial_invariant : invariant AppTsx.initialWorld.
Proof.
  constructor; simpl; try reflexivity; try discriminate; intros j d [].
Qed.

Lemma run_snoc (w : AppTsx.World) (events : list AppTsx.Event) (e : AppTsx.Event) :
  run w (events ++ [e]) = step (run w events) e.
Proof.
  unfold AppTsx.run. now rewrite fold_left_app.
Qed.

Lemma run_invariant (w : AppTsx.World) (events : list AppTsx.Event) :
  invariant w -> invariant (run w events).
Proof.
  induction events as [|e events IH] using rev_ind; intros H; [exact H|].
  rewrite run_snoc. apply step_invariant. auto.
Qed.

Lemma reachable_invariant (w : AppTsx.World) :
  reachable parseFloat typeErrorMessage w -> invariant w.
Proof.
  intros [events <-]. apply run_invariant, initial_invariant.
Qed.



End Transitions.

(** ** The properties of the flow of src/src/App.tsx *)

Section Claims.

Variable parseFloat : value -> number.
Variable typeErrorMessage : string -> string.

Local Abbreviation poll := (AppTsx.pollJobStatus parseFloat typeErrorMessage).
Local Abbreviation step := (AppTsx.step parseFloat typeErrorMessage).
Local Abbreviation run := (AppTsx.run parseFloat typeErrorMessage).
Local Abbreviation reachable := (reachable parseFloat typeErrorMessage).


(** C10. Whatever sequence of events the mounted component goes
    through, the tag prefix it stores matches [^[A-Za-z0-9_]*$]: it is
    empty at mount, a keystroke stores the sanitized value, the reset
    stores the empty string, and nothing else writes it. *)
Theorem C10_tag_prefix_always_sanitized :
  forall events : list AppTsx.Event,
    matches_tag_regex
      (AppTsx.customTag (AppTsx.ui (run AppTsx.initialWorld events))) = true.
Proof.
  intros events.
  apply (inv_tag _ (run_invariant parseFloat typeErrorMessage
                      AppTsx.initialWorld events initial_invariant)).
Qed.

(** C8, amended. In every reachable state that shows the results, which
    every state in which [renderResults] puts the "Process Another Deck"
    button on the page does, the handler of that button gives the state at
    mount except for the selected embedding model, which keeps the user's
    choice: both file selections are null, progress is 0, the error and
    success messages, the estimated time, the job id and the phase are
    null, the tag prefix is empty, the result data is null, the results
    are hidden and processing is off.  Pressing the button where
    [renderResults] puts it on the page leads to that state. *)
Theorem C8_reset_restores_all_but_model :
  forall w : AppTsx.World,
    reachable w ->
    AppTsx.showResults (AppTsx.ui w) = true ->
    AppTsx.processAnotherDeck (AppTsx.ui w) =
    AppTsx.setSelectedModel (AppTsx.selectedModel (AppTsx.ui w)) AppTsx.initialState /\
    (AppTsx.resultsRendered (AppTsx.ui w) = true ->
     AppTsx.ui (step w AppTsx.AnotherDeckClicked) =
     AppTsx.setSelectedModel (AppTsx.selectedModel (AppTsx.ui w)) AppTsx.initialState).
Proof.
  intros w Hreach Hshow. apply reachable_invariant in Hreach.
  pose proof (inv_results w Hreach Hshow) as Hproc.
  assert (Hreset :
    AppTsx.processAnotherDeck (AppTsx.ui w) =
    AppTsx.setSelectedModel (AppTsx.selectedModel (AppTsx.ui w)) AppTsx.initialState).
  { unfold AppTsx.processAnotherDeck, AppTsx.resetState.
    destruct (AppTsx.ui w); simpl in *. now subst. }
  split; [exact Hreset|].
  intros Hres. unfold AppTsx.step. rewrite Hres. simpl. exact Hreset.
Qed.

End Claims.


(** C8, as stated, fails: after a completed run in which the user had
    picked another embedding model and the server had sent every field of
    the results, the button is on the page and the state after "Process
    Another Deck" is not the state at mount. *)
Lemma C8_reset_counterexample :
  let w := AppTsx.run sample_parseFloat sample_typeErrorMessage AppTsx.initialWorld
             completed_run in
  AppTsx.processingResults (AppTsx.ui w) = sample_results /\
  AppTsx.resultsRendered (AppTsx.ui w) = true /\
  AppTsx.ui (AppTsx.step sample_parseFloat sample_typeErrorMessage w
               AppTsx.AnotherDeckClicked)
  <> AppTsx.initialState.
Proof.
  split; [reflexivity|]. split; [reflexivity|].
  intros H. apply (f_equal AppTsx.selectedModel) in H. vm_compute in H. discriminate.
Qed.

Lemma C8_reset_witness :
  let w := AppTsx.run sample_parseFloat sample_typeErrorMessage AppTsx.initialWorld
             completed_run in
  AppTsx.showResults (AppTsx.ui w) = true /\
  AppTsx.ui (AppTsx.step sample_parseFloat sample_typeErrorMessage w
               AppTsx.AnotherDeckClicked) =
  AppTsx.setSelectedModel "text-embedding-3-large" AppTsx.initialState.
Proof.
  intros w.
  destruct (C8_reset_restores_all_but_model sample_parseFloat sample_typeErrorMessage w)
    as [_ Hclick].
  - exists completed_run. reflexivity.
  - reflexivity.
  - split; [reflexivity|]. apply Hclick. reflexivity.
Defined.

(** ** The polling loop of src/unnamed/part_001 *)

Section JsFlow.

Variable typeErrorMessage : string -> string.
Variable JSON_parse : string -> Fetched value.
Variable hostToString : value -> string.

Local Abbreviation jpoll := (AppJs.pollJobStatus typeErrorMessage hostToString).
Local Abbreviation jresume := (AppJs.intervalCallback_resume typeErrorMessage hostToString).
Local Abbreviation jsubmitted :=
  (AppJs.handleSubmit_resume typeErrorMessage JSON_parse hostToString).

(** A handler whose [catch] returns always returns. *)
Lemma try_catch_returns {S A} (m : M S A) (h : exn -> M S A) :
  (forall err s, exists s' a, h err s = (s', Ok a)) ->
  forall s, exists s' a, try_catch m h s = (s', Ok a).
Proof.
  intros Hh s. unfold try_catch.
  destruct (m s) as [s' [a|err]]; [eauto | apply Hh].
Qed.

Lemma js_poll_returns (r : Fetched Response) (e : AppJs.Env) :
  exists e' b, jpoll r e = (e', Ok b).
Proof.
  unfold AppJs.pollJobStatus. apply try_catch_returns.
  intros err s. cbv [bind modify ret]. eauto.
Qed.

(** Every failure at the transport level ends in the [catch] of
    [pollJobStatus]: the message is shown, processing is switched off and
    the function returns [true]. *)
Lemma js_poll_transport_failure (r : Fetched Response) (err : exn) (e : AppJs.Env) :
  js_transport_failure r err ->
  jpoll r e =
  (AppJs.on_ui (AppJs.setProcessing false)
     (AppJs.on_ui (AppJs.setError (AppJs.message_or err "Error checking job status")) e),
   Ok true).
Proof.
  intros [err'|response H|response err' Hct Hok Hjson]; unfold_handler.
  - reflexivity.
  - unfold json_content_type in H. apply negb_false_iff in H. now rewrite H.
  - unfold json_content_type in Hct. apply negb_true_iff in Hct.
    now rewrite Hct, Hok, Hjson.
Qed.


End JsFlow.

(** ** Failures: of the transport, of the job, of the submission *)

Section Failures.

Variable parseFloat : value -> number.
Variable typeErrorMessage : string -> string.
Variable JSON_parse : string -> Fetched value.
Variable hostToString : value -> string.

Local Abbreviation poll := (AppTsx.pollJobStatus parseFloat typeErrorMessage).
Local Abbreviation step := (AppTsx.step parseFloat typeErrorMessage).
Local Abbreviation reachable := (reachable parseFloat typeErrorMessage).
Local Abbreviation jpoll := (AppJs.pollJobStatus typeErrorMessage hostToString).
Local Abbreviation jresume := (AppJs.intervalCallback_resume typeErrorMessage hostToString).
Local Abbreviation jsubmitted :=
  (AppJs.handleSubmit_resume typeErrorMessage JSON_parse hostToString).

(** C2, amended. In src/src/App.tsx a status request that fails at the
    transport level (rejected [fetch], body that is not JSON) is swallowed:
    the state is unchanged (no terminal state, no error), the interval is
    not cancelled, and if it is active its next tick issues a new status
    request.  In the variant of src/unnamed/part_001 the same failure is
    terminal: its [pollJobStatus] catches it, shows the message of the
    exception (or "Error checking job status"), switches processing off and
    returns [true], so the interval is cancelled.  In neither variant does
    [pollJobStatus] throw to its caller, so the branch of the interval
    callback that cancels the loop with a generic error is never taken. *)
Theorem C2_transport_failure_policy :
  (forall (w : AppTsx.World) (n i : nat) (captured : value) (r : Fetched Response),
      reachable w ->
      nth_error (AppTsx.pendingPolls w) n = Some (i, captured) ->
      transport_failure r ->
      let w' := step w (AppTsx.PollSettled n r) in
      AppTsx.ui w' = AppTsx.ui w /\
      AppTsx.intervals w' = AppTsx.intervals w /\
      AppTsx.statusRequests w' = AppTsx.statusRequests w /\
      forall d, AppTsx.interval_data i (AppTsx.intervals w') = Some d ->
        exists job,
          AppTsx.statusRequests (step w' (AppTsx.Tick i)) =
          (AppTsx.statusRequests w' ++ [(i, job)])%list) /\
  (forall (r : Fetched Response) (s : AppTsx.State),
      exists s' b, poll r s = (s', Ok b)) /\
  (forall (r : Fetched Response) (err : exn) (e : AppJs.Env),
      js_transport_failure r err ->
      let e' := fst (jresume r e) in
      AppJs.error (AppJs.ui e') = AppJs.message_or err "Error checking job status" /\
      AppJs.processing (AppJs.ui e') = false /\
      AppJs.effects e' = (AppJs.effects e ++ [AppJs.ClearInterval])%list) /\
  (forall (r : Fetched Response) (e : AppJs.Env),
      exists e' b, jpoll r e = (e', Ok b)).
Proof.
  repeat apply conj.
  - intros w n i captured r Hreach Hn Hfail w'.
    apply reachable_invariant in Hreach.
    assert (Hw' : w' = AppTsx.set_ui (AppTsx.ui w) (AppTsx.settlePoll n w)).
    { subst w'. unfold AppTsx.step. rewrite Hn. unfold_world.
      now rewrite (poll_transport_failure parseFloat typeErrorMessage r _ Hfail). }
    rewrite Hw'. simpl. repeat split.
    intros d Hd.
    destruct (inv_intervals w Hreach i d (interval_data_In _ _ _ Hd)) as [_ [job Hjob]].
    exists job. unfold AppTsx.step. simpl. rewrite Hd. unfold_world.
    now rewrite Hjob.
  - intros r s.
    destruct (poll_frame parseFloat typeErrorMessage r s) as (s' & b & E & _). eauto.
  - intros r err e Hfail e'. subst e'. unfold AppJs.intervalCallback_resume.
    cbv [try_catch bind].
    rewrite (js_poll_transport_failure typeErrorMessage hostToString r err e Hfail).
    simpl. repeat split.
  - apply js_poll_returns.
Qed.


(** C3, amended. A submission POST answered with a non-success HTTP
    status fails: processing is switched off and no polling starts.  In
    src/src/App.tsx the error shown is "Server error: " followed by the
    status code, and the body of the response is not read, so no detail
    message of the server appears.  In the variant of src/unnamed/part_001
    the error shown is "Server error: " followed by the text of the body,
    verbatim, whatever the body holds. *)
Theorem C3_submit_server_error_message :
  (forall (w : AppTsx.World) (response : Response),
      AppTsx.pendingSubmits w <> 0 ->
      ok response = false ->
      let w' := step w (AppTsx.SubmitSettled (Resolved response)) in
      AppTsx.error (AppTsx.ui w') =
        VStr ("Server error: " ++ decimal (status response)) /\
      AppTsx.processing (AppTsx.ui w') = false /\
      AppTsx.intervals w' = AppTsx.intervals w) /\
  (forall (response : Response) (body : string) (e : AppJs.Env),
      ok response = false ->
      text response = Resolved body ->
      let e' := fst (jsubmitted (Resolved response) e) in
      AppJs.error (AppJs.ui e') = VStr ("Server error: " ++ body) /\
      AppJs.processing (AppJs.ui e') = false /\
      AppJs.effects e' = AppJs.effects e).
Proof.
  split.
  - intros w response Hp Hok w'. subst w'. unfold AppTsx.step.
    destruct (AppTsx.pendingSubmits w) eqn:Ep; [contradiction|].
    unfold_world. rewrite Hok. simpl. repeat split.
  - intros response body e Hok Htext e'. subst e'.
    unfold AppJs.handleSubmit_resume.
    cbv [try_catch bind await ret modify throw AppJs.prop].
    rewrite Hok, Htext. simpl.
    destruct (JSON_parse body) as [err|parsed]; [simpl; repeat split|].
    destruct (get parsed "error") as [e1|]; [|simpl; repeat split].
    destruct (truthy e1); [simpl; repeat split|].
    destruct (get parsed "detail") as [e2|]; simpl; repeat split.
Qed.

End Failures.

Lemma C2_transport_failure_witness :
  (let w := AppTsx.run sample_parseFloat sample_typeErrorMessage
              AppTsx.initialWorld submitted in
   let w' := AppTsx.step sample_parseFloat sample_typeErrorMessage w
               (AppTsx.PollSettled 0 (Rejected (Error "Failed to fetch"))) in
   AppTsx.ui w' = AppTsx.ui w /\ AppTsx.intervals w' = AppTsx.intervals w) /\
  AppJs.effects
    (fst (AppJs.intervalCallback_resume sample_typeErrorMessage sample_hostToString
            (Rejected (Error "Failed to fetch")) js_processing))
  = [AppJs.ClearInterval].
Proof.
  destruct (C2_transport_failure_policy sample_parseFloat sample_typeErrorMessage
              sample_hostToString) as (Htsx & _ & Hjs & _).
  split.
  - intros w w'.
    destruct (Htsx w 0 0 (VObj [("task_id", VStr "job-1"); ("statistics", VObj [])])
                (Rejected (Error "Failed to fetch"))) as (Hui & Hint & _).
    + exists submitted. reflexivity.
    + reflexivity.
    + apply fetch_rejected.
    + split; [exact Hui | exact Hint].
  - apply (Hjs (Rejected (Error "Failed to fetch")) (Error "Failed to fetch")
               js_processing).
    apply js_fetch_rejected.
Defined.

(** C2, as stated, fails on the variant of src/unnamed/part_001: a
    rejected [fetch] of the status request shows an error, switches
    processing off and cancels the interval. *)
Lemma C2_transport_failure_counterexample :
  let e' := fst (AppJs.intervalCallback_resume sample_typeErrorMessage
                   sample_hostToString (Rejected (Error "Failed to fetch"))
                   js_processing) in
  AppJs.error (AppJs.ui e') = VStr "Failed to fetch" /\
  AppJs.processing (AppJs.ui e') = false /\
  In AppJs.ClearInterval (AppJs.effects e').
Proof.
  repeat split. left. reflexivity.
Qed.



Lemma C3_submit_server_error_witness :
  (let w := AppTsx.run sample_parseFloat sample_typeErrorMessage
              AppTsx.initialWorld clicked in
   let w' := AppTsx.step sample_parseFloat sample_typeErrorMessage w
               (AppTsx.SubmitSettled (Resolved refusal)) in
   AppTsx.error (AppTsx.ui w') = VStr "Server error: 400") /\
  AppJs.error
    (AppJs.ui
       (fst (AppJs.handleSubmit_resume sample_typeErrorMessage sample_JSON_parse
               sample_hostToString (Resolved refusal) js_processing)))
  = VStr ("Server error: " ++ refusal_text).
Proof.
  destruct (C3_submit_server_error_message sample_parseFloat sample_typeErrorMessage
              sample_JSON_parse sample_hostToString) as (Htsx & Hjs).
  split.
  - intros w w'.
    destruct (Htsx w refusal) as (Herr & _); [discriminate | reflexivity |].
    exact Herr.
  - destruct (Hjs refusal refusal_text js_processing) as (Herr & _);
      [reflexivity | reflexivity |].
    exact Herr.
Defined.

(** C3, as stated, fails on src/src/App.tsx: the server refuses the deck
    with status 400 and the detail "bad deck" in the [error] field of its
    JSON body; the error shown is "Server error: 400", in which the detail
    does not appear. *)
Lemma C3_submit_server_error_counterexample :
  let w := AppTsx.run sample_parseFloat sample_typeErrorMessage
             AppTsx.initialWorld clicked in
  let w' := AppTsx.step sample_parseFloat sample_typeErrorMessage w
              (AppTsx.SubmitSettled (Resolved refusal)) in
  AppTsx.pendingSubmits w = 1 /\
  AppTsx.error (AppTsx.ui w') = VStr "Server error: 400" /\
  includes "Server error: 400" "bad deck" = false.
Proof.
  repeat split.
Qed.

(** ** The embedding scatter plot *)

(** C9, amended. The zones of the scatter plot are bounded by the fixed
    thresholds 0.8 and 0.5 times 100: 80 to 100, 50 to 80 and 0 to 50 on an
    axis from 0 to 100.  For input data that is not empty, every card is
    plotted, in order, at x = y = z = similarity * 100 with its other
    fields unchanged, followed by one reference point for the source
    document at similarity 1 and x = y = z = 100; every such point is in
    the scatter series of its relevance.  For missing or empty input data
    nothing is plotted, not even the reference point. *)
Theorem C9_scatter_plot_points_and_zones :
  Viz.THRESHOLDS_high = Fin (8 # 10) /\
  Viz.THRESHOLDS_medium = Fin (5 # 10) /\
  (exists hi mid lo,
      Viz.renderReferenceAreas = [hi; mid; lo] /\
      Viz.x1 hi = num_mul Viz.THRESHOLDS_high (num_of_Z 100) /\
      Viz.x1 mid = num_mul Viz.THRESHOLDS_medium (num_of_Z 100) /\
      zone_is hi 80 100 /\ zone_is mid 50 80 /\ zone_is lo 0 50) /\
  Viz.xDomain = (num_of_Z 0, num_of_Z 100) /\
  (forall (points : list Viz.DataPoint) (documentEmbedding : list number),
      points <> [] ->
      Viz.processedData (Some points) documentEmbedding =
        (map Viz.cardPoint points ++ [Viz.documentPoint documentEmbedding])%list) /\
  (forall point : Viz.DataPoint,
      Viz.x (Viz.cardPoint point) =
        Some (num_mul (Viz.similarity point) (num_of_Z 100)) /\
      Viz.y (Viz.cardPoint point) = Viz.x (Viz.cardPoint point) /\
      Viz.z (Viz.cardPoint point) = Viz.x (Viz.cardPoint point) /\
      Viz.cardId (Viz.cardPoint point) = Viz.cardId point /\
      Viz.relevance (Viz.cardPoint point) = Viz.relevance point /\
      Viz.similarity (Viz.cardPoint point) = Viz.similarity point) /\
  (forall documentEmbedding : list number,
      let d := Viz.documentPoint documentEmbedding in
      Viz.relevance d = Viz.document /\
      Viz.similarity d = num_of_Z 1 /\
      Viz.x d = Some (num_of_Z 100) /\
      Viz.y d = Some (num_of_Z 100) /\
      Viz.z d = Some (num_of_Z 100)) /\
  (forall (data : option (list Viz.DataPoint)) (documentEmbedding : list number)
          (d : Viz.DataPoint),
      In d (Viz.processedData data documentEmbedding) ->
      In d (Viz.series (Viz.relevance d) (Viz.processedData data documentEmbedding))) /\
  (forall documentEmbedding : list number,
      Viz.processedData None documentEmbedding = [] /\
      Viz.processedData (Some []) documentEmbedding = []).
Proof.
  repeat apply conj; try reflexivity.
  - do 3 eexists. repeat apply conj; reflexivity.
  - intros points documentEmbedding Hne. unfold Viz.processedData.
    destruct points as [|p points]; [contradiction | reflexivity].
  - intros point. repeat split.
  - intros documentEmbedding. repeat split.
  - intros data documentEmbedding d Hd. unfold Viz.series.
    apply filter_In. split; [exact Hd|]. now destruct (Viz.relevance d).
  - intros documentEmbedding. split; reflexivity.
Qed.

Lemma C9_scatter_plot_witness :
  Viz.processedData (Some [sample_card]) [] =
  [Viz.cardPoint sample_card; Viz.documentPoint []].
Proof.
  apply (proj1 (proj2 (proj2 (proj2 (proj2 C9_scatter_plot_points_and_zones))))
           [sample_card] []).
  discriminate.
Defined.

(** C9, as stated, fails: for empty input data no reference point is
    plotted. *)
Lemma C9_scatter_plot_counterexample :
  ~ In (Viz.documentPoint []) (Viz.processedData (Some []) []).
Proof.
  intros [].
Qed.

(** ** Further properties: the sanitizer *)

Lemma sanitizeTag_append (s t : string) :
  sanitizeTag (s ++ t) = sanitizeTag s ++ sanitizeTag t.
Proof.
  induction s as [|c s IH]; simpl; [reflexivity | now rewrite IH].
Qed.

Lemma sanitizeTag_fixed (s : string) :
  sanitizeTag s = s <-> matches_tag_regex s = true.
Proof.
  induction s as [|c s IH]; simpl; [tauto|]. split.
  - intros [= Hc Hs]. apply andb_true_iff. split; [|now apply IH].
    unfold is_tag_char. destruct (is_alnum c); [reflexivity|].
    rewrite <- Hc. reflexivity.
  - intros H. apply andb_true_iff in H as [Hc Hs]. apply IH in Hs. rewrite Hs.
    f_equal. unfold is_tag_char in Hc. destruct (is_alnum c); [reflexivity|].
    simpl in Hc. apply Ascii.eqb_eq in Hc. now subst.
Qed.

(** X1. The sanitizer is idempotent, its fixed points are exactly the
    strings that match [^[A-Za-z0-9_]*$], it works character by character
    (the sanitized concatenation is the concatenation of the sanitized
    parts), and it gives the empty string only for the empty string: a tag
    typed with special characters only is stored as underscores and is not
    empty. *)
Theorem X1_sanitizer_algebra :
  (forall s, sanitizeTag (sanitizeTag s) = sanitizeTag s) /\
  (forall s, sanitizeTag s = s <-> matches_tag_regex s = true) /\
  (forall s t, sanitizeTag (s ++ t) = sanitizeTag s ++ sanitizeTag t) /\
  (forall s, sanitizeTag s = "" <-> s = "").
Proof.
  repeat apply conj.
  - intros s. apply sanitizeTag_fixed, sanitizeTag_matches.
  - apply sanitizeTag_fixed.
  - apply sanitizeTag_append.
  - intros s. destruct s; simpl; split; try reflexivity; discriminate.
Qed.

(** ** Further properties: the scatter plot *)

Lemma relevance_eqb_eq (a b : Viz.RelevanceType) :
  Viz.relevance_eqb a b = true <-> a = b.
Proof.
  destruct a, b; simpl; split; try reflexivity; discriminate.
Qed.

Lemma series_cardPoint (r : Viz.RelevanceType) (points : list Viz.DataPoint) :
  Viz.series r (map Viz.cardPoint points) = map Viz.cardPoint (Viz.series r points).
Proof.
  unfold Viz.series.
  induction points as [|p points IH]; simpl; [reflexivity|].
  destruct (Viz.relevance p), r; simpl; now rewrite IH.
Qed.

Lemma series_partition (points : list Viz.DataPoint) :
  List.length (Viz.series Viz.high points)
  + List.length (Viz.series Viz.medium points)
  + List.length (Viz.series Viz.low points)
  + List.length (Viz.series Viz.document points)
  = List.length points.
Proof.
  unfold Viz.series.
  induction points as [|p points IH]; simpl; [reflexivity|].
  destruct (Viz.relevance p); simpl; lia.
Qed.

Lemma series_none (r : Viz.RelevanceType) (points : list Viz.DataPoint) :
  (forall p, In p points -> Viz.relevance p <> r) -> Viz.series r points = [].
Proof.
  unfold Viz.series. induction points as [|p points IH]; intros H; simpl; [reflexivity|].
  assert (Hp : Viz.relevance p <> r) by (apply H; now left).
  destruct (Viz.relevance p), r; try congruence; apply IH; intros q Hq; apply H; now right.
Qed.

(** X2. The four scatter series (document, high, medium, low) split the
    processed points: their sizes add up to the number of processed
    points, so no point is dropped or drawn twice.  For input data that is
    not empty, the series of a card band holds exactly the input cards of
    that band, in input order, and the document series holds the reference
    point after the input cards that are themselves tagged "document"; it
    is the reference point alone when no card is. *)
Theorem X2_scatter_series_partition :
  (forall (data : option (list Viz.DataPoint)) (documentEmbedding : list number),
      let processed := Viz.processedData data documentEmbedding in
      List.length (Viz.series Viz.high processed)
      + List.length (Viz.series Viz.medium processed)
      + List.length (Viz.series Viz.low processed)
      + List.length (Viz.series Viz.document processed)
      = List.length processed) /\
  (forall (points : list Viz.DataPoint) (documentEmbedding : list number)
          (r : Viz.RelevanceType),
      points <> [] ->
      let processed := Viz.processedData (Some points) documentEmbedding in
      (r <> Viz.document ->
       Viz.series r processed = map Viz.cardPoint (Viz.series r points)) /\
      Viz.series Viz.document processed =
        (map Viz.cardPoint (Viz.series Viz.document points)
         ++ [Viz.documentPoint documentEmbedding])%list /\
      ((forall p, In p points -> Viz.relevance p <> Viz.document) ->
       Viz.series Viz.document processed = [Viz.documentPoint documentEmbedding])).
Proof.
  split.
  - intros data documentEmbedding processed. apply series_partition.
  - intros points documentEmbedding r Hne processed.
    assert (E : processed =
                (map Viz.cardPoint points ++ [Viz.documentPoint documentEmbedding])%list).
    { subst processed. unfold Viz.processedData.
      destruct points; [contradiction | reflexivity]. }
    assert (Hdoc : Viz.series Viz.document processed =
                   (map Viz.cardPoint (Viz.series Viz.document points)
                    ++ [Viz.documentPoint documentEmbedding])%list).
    { rewrite E. unfold Viz.series at 1. rewrite filter_app.
      fold (Viz.series Viz.document (map Viz.cardPoint points)).
      now rewrite series_cardPoint. }
    repeat split.
    + intros Hr. rewrite E. unfold Viz.series at 1. rewrite filter_app.
      fold (Viz.series r (map Viz.cardPoint points)).
      rewrite series_cardPoint. simpl.
      destruct r; try contradiction; simpl; apply app_nil_r.
    + exact Hdoc.
    + intros Hnone. rewrite Hdoc. now rewrite (series_none _ _ Hnone).
Qed.

Lemma X2_scatter_series_witness :
  Viz.series Viz.medium (Viz.processedData (Some [sample_card]) []) =
  [Viz.cardPoint sample_card] /\
  Viz.series Viz.document (Viz.processedData (Some [sample_card]) []) =
  [Viz.documentPoint []].
Proof.
  destruct (proj2 X2_scatter_series_partition [sample_card] [] Viz.medium)
    as (Hcards & _ & Hdoc); [discriminate|].
  split.
  - apply Hcards. discriminate.
  - apply Hdoc. intros p [<-|[]]. discriminate.
Defined.

Lemma clicks_snoc (curr : option Viz.RelevanceType) (values : list Viz.RelevanceType)
    (v : Viz.RelevanceType) :
  Viz.clicks curr (values ++ [v]) = Viz.toggleCluster v (Viz.clicks curr values).
Proof.
  unfold Viz.clicks. now rewrite fold_left_app.
Qed.

(** X3. After a click on a legend entry the band of that entry is never
    dimmed, and another band is dimmed exactly when the click selected the
    entry rather than deselected it.  After any sequence of clicks the
    selection is empty or is the band clicked last, and with an empty
    selection every series is drawn at full opacity. *)
Theorem X3_legend_highlight :
  (forall (curr : option Viz.RelevanceType) (v : Viz.RelevanceType),
      Viz.opacity (Viz.toggleCluster v curr) v = 1%Q) /\
  (forall (curr : option Viz.RelevanceType) (v r : Viz.RelevanceType),
      r <> v ->
      Viz.opacity (Viz.toggleCluster v curr) r =
      if match curr with Some c => Viz.relevance_eqb c v | None => false end
      then 1%Q else (3 # 10)%Q) /\
  (forall (curr : option Viz.RelevanceType) (values : list Viz.RelevanceType)
          (v : Viz.RelevanceType),
      Viz.clicks curr (values ++ [v]) = None \/
      Viz.clicks curr (values ++ [v]) = Some v) /\
  (forall r : Viz.RelevanceType, Viz.opacity None r = 1%Q).
Proof.
  repeat apply conj.
  - intros [c|] v; simpl; [|now destruct v].
    destruct (Viz.relevance_eqb c v); simpl; [reflexivity | now destruct v].
  - intros [c|] v r Hr; simpl.
    + destruct (Viz.relevance_eqb c v); simpl; [reflexivity|].
      destruct (Viz.relevance_eqb v r) eqn:E; [|reflexivity].
      apply relevance_eqb_eq in E. congruence.
    + destruct (Viz.relevance_eqb v r) eqn:E; [|reflexivity].
      apply relevance_eqb_eq in E. congruence.
  - intros curr values v. rewrite clicks_snoc.
    destruct (Viz.clicks curr values) as [c|]; simpl; [|now right].
    destruct (Viz.relevance_eqb c v); [now left | now right].
  - reflexivity.
Qed.

Lemma X3_legend_highlight_witness :
  Viz.opacity (Viz.toggleCluster Viz.high None) Viz.low = (3 # 10)%Q.
Proof.
  apply (proj1 (proj2 X3_legend_highlight) None Viz.high Viz.low). discriminate.
Defined.

(** ** Further properties: invariants of the flow of src/src/App.tsx *)

Ltac close_ui :=
  simpl; do 2 eexists; (split; [reflexivity|]);
  repeat split; auto; intros; simpl in *;
  repeat match goal with
  | H : Some _ = Some _ |- _ => injection H as <-
  | H : ?P -> _ /\ _, H' : ?P |- _ => destruct (H H'); clear H
  end; auto; try discriminate; try congruence.

Ltac keep_ui :=
  constructor; simpl; auto;
  try (intros; discriminate);
  try (intros; congruence);
  try (intros ? [= <-]; assumption);
  try (intros;
       match goal with
       | Hd : forall f, _ -> endsWith (fileName f) ?ext = true
         |- endsWith (fileName _) ?ext = true => apply Hd; congruence
       end);
  try (intros Hp;
       match goal with
       | Hb : ?P -> _ /\ _ |- _ => destruct (Hb Hp); split; auto
       end).

Section FlowInvariants.

Variable parseFloat : value -> number.
Variable typeErrorMessage : string -> string.

Local Abbreviation poll := (AppTsx.pollJobStatus parseFloat typeErrorMessage).
Local Abbreviation step := (AppTsx.step parseFloat typeErrorMessage).
Local Abbreviation run := (AppTsx.run parseFloat typeErrorMessage).

(** What [pollJobStatus] leaves alone, and what it keeps true. *)
Lemma poll_keeps (r : Fetched Response) (s : AppTsx.State) :
  exists s' b,
    poll r s = (s', Ok b) /\
    AppTsx.ankiFile s' = AppTsx.ankiFile s /\
    AppTsx.studyMaterial s' = AppTsx.studyMaterial s /\
    AppTsx.customTag s' = AppTsx.customTag s /\
    AppTsx.jobId s' = AppTsx.jobId s /\
    ((AppTsx.processing s = true ->
      AppTsx.success s = None /\ AppTsx.showResults s = false) ->
     AppTsx.processing s' = true ->
     AppTsx.success s' = None /\ AppTsx.showResults s' = false) /\
    ((forall t, AppTsx.estimatedTime s = Some t -> num_geb t (num_of_Z 0) = true) ->
     forall t, AppTsx.estimatedTime s' = Some t -> num_geb t (num_of_Z 0) = true).
Proof.
  unfold_handler.
  destruct r as [e|response]; [close_ui|].
  destruct (json response) as [e|data]; [close_ui|].
  destruct (get data "progress_data") as [pd|] eqn:Hpd; [|close_ui].
  repeat match goal with
  | |- context [get data ?k] => rewrite (get_opt_get data _ k pd Hpd)
  end.
  rewrite ?(opt_get_of_get _ _ _ Hpd).
  split_ifs; close_ui.
Qed.

Lemma step_ui_invariant (w : AppTsx.World) (e : AppTsx.Event) :
  ui_invariant (AppTsx.ui w) -> ui_invariant (AppTsx.ui (step w e)).
Proof.
  intros [Hdeck Hstudy Htag Hbusy Htime].
  destruct e as [ft f|v|v| | |r|i|n r]; unfold AppTsx.step.
  - unfold AppTsx.handleFileUpload.
    destruct f as [f|]; [destruct ft|].
    + destruct (endsWith (fileName f) ".apkg") eqn:E; keep_ui.
    + destruct (endsWith (fileName f) ".pdf") eqn:E; keep_ui.
    + keep_ui.
  - keep_ui. apply sanitizeTag_matches.
  - keep_ui.
  - destruct (AppTsx.processing (AppTsx.ui w)) eqn:Ep; [keep_ui|].
    unfold AppTsx.handleButtonClick, AppTsx.handleSubmit.
    repeat match goal with
    | |- context [if ?c then _ else _] => destruct c eqn:?
    | |- context [match ?x with Some _ => _ | None => _ end] => destruct x eqn:?
    end; keep_ui.
  - destruct (AppTsx.resultsRendered (AppTsx.ui w)); keep_ui.
  - destruct (AppTsx.pendingSubmits w); [keep_ui|].
    unfold_world. destruct r as [err|response]; simpl; [keep_ui|].
    destruct (ok response); simpl; [|keep_ui].
    destruct (json response) as [err|data]; simpl; [keep_ui|].
    destruct (get data "task_id") as [job|] eqn:Ejob; simpl; [|keep_ui].
    destruct (truthy job); simpl; keep_ui.
  - destruct (AppTsx.interval_data i (AppTsx.intervals w)) as [data|] eqn:Ei;
      [|keep_ui].
    unfold_world. destruct (get data "task_id") as [job|] eqn:Ejob; simpl; keep_ui.
  - destruct (nth_error (AppTsx.pendingPolls w) n) as [[i data]|] eqn:En;
      [|keep_ui].
    destruct (poll_keeps r (AppTsx.ui (AppTsx.settlePoll n w)))
      as (s' & b & E & Ha & Hm & Ht & _ & Hb & Hti).
    unfold_world. rewrite E. simpl in Ha, Hm, Ht, Hb, Hti.
    destruct b; constructor; simpl; rewrite ?Ha, ?Hm, ?Ht; auto.
Qed.

Lemma step_env (w : AppTsx.World) (e : AppTsx.Event) : env_step w (step w e).
Proof.
  destruct e as [ft f|v|v| | |r|i|n r]; unfold AppTsx.step.
  - now apply es_shrink.
  - now apply es_shrink.
  - now apply es_shrink.
  - destruct (AppTsx.processing (AppTsx.ui w)); [now apply es_shrink|].
    unfold AppTsx.handleButtonClick.
    destruct (AppTsx.showResults (AppTsx.ui w)
              && truthy (AppTsx.opt_get (AppTsx.processingResults (AppTsx.ui w))
                           "download_url")); [now apply es_shrink|].
    unfold AppTsx.handleSubmit.
    destruct (AppTsx.ankiFile (AppTsx.ui w)) as [a|] eqn:Ea; [|now apply es_shrink].
    destruct (AppTsx.studyMaterial (AppTsx.ui w)) as [m|] eqn:Em; [|now apply es_shrink].
    destruct (AppTsx.customTag (AppTsx.ui w)) as [|c tag] eqn:Et; simpl;
      [now apply es_shrink|].
    apply (es_post _ _ a m); simpl; rewrite ?Et; auto. discriminate.
  - destruct (AppTsx.resultsRendered (AppTsx.ui w)); now apply es_shrink.
  - destruct (AppTsx.pendingSubmits w) as [|k] eqn:Ek; [now apply es_shrink|].
    assert (Hk : forall w', AppTsx.intervals w' = AppTsx.intervals w ->
                  AppTsx.nextInterval w' = AppTsx.nextInterval w ->
                  AppTsx.pendingPolls w' = AppTsx.pendingPolls w ->
                  AppTsx.pendingSubmits w' = k ->
                  AppTsx.statusRequests w' = AppTsx.statusRequests w ->
                  AppTsx.posts w' = AppTsx.posts w -> env_step w w').
    { intros w' H1 H2 H3 H4 H5 H6. apply es_shrink; rewrite ?H1, ?H3, ?Ek; auto; lia. }
    unfold_world. destruct r as [err|response]; simpl;
      [apply Hk; simpl; auto; now rewrite Ek|].
    destruct (ok response); simpl; [|apply Hk; simpl; auto; now rewrite Ek].
    destruct (json response) as [err|data]; simpl;
      [apply Hk; simpl; auto; now rewrite Ek|].
    destruct (get data "task_id") as [job|] eqn:Ejob; simpl;
      [|apply Hk; simpl; auto; now rewrite Ek].
    destruct (truthy job) eqn:Etruthy; simpl;
      [|apply Hk; simpl; auto; now rewrite Ek].
    apply (es_setInterval _ _ data job); simpl; auto. now rewrite Ek.
  - destruct (AppTsx.interval_data i (AppTsx.intervals w)) as [data|] eqn:Ei;
      [|now apply es_shrink].
    unfold_world. destruct (get data "task_id") as [job|] eqn:Ejob; simpl.
    + apply (es_fetchStatus _ _ i data job); simpl; auto.
      now apply interval_data_In.
    + apply es_shrink; simpl; eauto using In_filter_weaken.
  - destruct (nth_error (AppTsx.pendingPolls w) n) as [[i data]|] eqn:En;
      [|now apply es_shrink].
    destruct (poll_keeps r (AppTsx.ui (AppTsx.settlePoll n w))) as (s' & b & E & _).
    unfold_world. rewrite E. destruct b; simpl;
      apply es_shrink; simpl; eauto using In_filter_weaken, In_settle.
Qed.

Lemma env_step_invariant (w w' : AppTsx.World) :
  env_invariant w -> env_step w w' -> env_invariant w'.
Proof.
  intros [Hstart Hcap Huniq Hreq Hsame Hone]
         [Hsub Hnext Hpsub Hle Hr Hp
         | a m Ha Hm Ht Hi Hnext Hpp Hs Hr Hp
         | data job Hjob Htruthy Hi Hnext Hpp Hs Hr Hp
         | i data job Hin Hjob Hi Hnext Hpp Hs Hr Hp].
  - assert (Hold : forall i d,
               In (i, d) (AppTsx.intervals w') \/ In (i, d) (AppTsx.pendingPolls w') ->
               In (i, d) (AppTsx.intervals w) \/ In (i, d) (AppTsx.pendingPolls w)).
    { intros i d [H|H]; [left; now apply Hsub | right; now apply Hpsub]. }
    constructor; rewrite ?Hnext, ?Hr, ?Hp; eauto.
    lia.
  - constructor; rewrite ?Hi, ?Hnext, ?Hpp, ?Hr, ?Hp, ?Hs; eauto.
    rewrite length_app. simpl. lia.
  - assert (Hold : forall i d,
               In (i, d) (AppTsx.intervals w') \/ In (i, d) (AppTsx.pendingPolls w') ->
               (In (i, d) (AppTsx.intervals w) \/ In (i, d) (AppTsx.pendingPolls w)) \/
               (i = AppTsx.nextInterval w /\ d = data)).
    { intros i d [H|H].
      - rewrite Hi in H. apply in_app_or in H as [H|[[= <- <-]|[]]]; auto.
      - rewrite Hpp in H. auto. }
    constructor; rewrite ?Hnext, ?Hr, ?Hp.
    + lia.
    + intros i d H. apply Hold in H as [H|[-> ->]].
      * destruct (Hcap i d H) as [Hlt Hex]. split; [lia | exact Hex].
      * split; [lia | now exists job].
    + intros i d d' H H'. apply Hold in H as [H|[-> ->]];
        apply Hold in H' as [H'|[E ->]].
      * eauto.
      * subst i. destruct (Hcap _ d H). lia.
      * destruct (Hcap _ d' H'). lia.
      * reflexivity.
    + intros i j H. destruct (Hreq i j H). split; [lia | assumption].
    + intros i d j H Hj. apply Hold in H as [H|[-> ->]]; [eauto|].
      destruct (Hreq _ j Hj). lia.
    + exact Hone.
  - assert (Hold : forall k d,
               In (k, d) (AppTsx.intervals w') \/ In (k, d) (AppTsx.pendingPolls w') ->
               In (k, d) (AppTsx.intervals w) \/ In (k, d) (AppTsx.pendingPolls w)).
    { intros k d [H|H].
      - rewrite Hi in H. auto.
      - rewrite Hpp in H. apply in_app_or in H as [H|[[= <- <-]|[]]]; auto. }
    assert (Hnew : forall k j,
               In (k, j) (AppTsx.statusRequests w') ->
               In (k, j) (AppTsx.statusRequests w) \/ (k = i /\ j = job)).
    { intros k j H. rewrite Hr in H.
      apply in_app_or in H as [H|[[= <- <-]|[]]]; auto. }
    constructor; rewrite ?Hnext, ?Hp, ?Hs.
    + exact Hstart.
    + intros k d H. apply Hcap. now apply Hold.
    + intros k d d' H H'. apply Hold in H. apply Hold in H'. eauto.
    + intros k j H. apply Hnew in H as [H|[-> ->]]; [now apply Hreq|].
      destruct (Hcap i data (or_introl Hin)) as [Hlt [job' [Hjob' Ht]]].
      split; [exact Hlt|]. congruence.
    + intros k d j H Hj. apply Hold in H. apply Hnew in Hj as [Hj|[-> ->]]; [eauto|].
      now rewrite (Huniq i d data H (or_introl Hin)).
    + intros k j j' Hj Hj'.
      apply Hnew in Hj as [Hj|[-> ->]]; apply Hnew in Hj' as [Hj'|[E ->]].
      * eauto.
      * subst k. pose proof (Hsame i data j (or_introl Hin) Hj). congruence.
      * pose proof (Hsame i data j' (or_introl Hin) Hj'). congruence.
      * reflexivity.
Qed.

Lemma initial_env_invariant : env_invariant AppTsx.initialWorld.
Proof.
  constructor; simpl; auto; try (intros; tauto). 
Qed.

Lemma initial_ui_invariant : ui_invariant AppTsx.initialState.
Proof.
  constructor; simpl; auto; intros; discriminate.
Qed.

(** Every reachable world keeps the three invariants. *)
Lemma run_flow (events : list AppTsx.Event) :
  let w := run AppTsx.initialWorld events in
  ui_invariant (AppTsx.ui w) /\ env_invariant w /\
  Forall well_formed_post (AppTsx.posts w).
Proof.
  induction events as [|e events IH] using rev_ind.
  - simpl. auto using initial_ui_invariant, initial_env_invariant.
  - rewrite (run_snoc parseFloat typeErrorMessage). simpl in *.
    destruct IH as (Hui & Henv & Hposts).
    set (w := run AppTsx.initialWorld events) in *.
    pose proof (step_env w e) as Hstep.
    split; [|split].
    + apply step_ui_invariant, Hui.
    + exact (env_step_invariant w _ Henv Hstep).
    + destruct Hstep as [_ _ _ _ _ Hp | a m Ha Hm Ht _ _ _ _ _ Hp
                        | data job _ _ _ _ _ _ _ Hp | i data job _ _ _ _ _ _ _ Hp];
        rewrite Hp; auto.
      apply Forall_app. split; [exact Hposts|]. constructor; [|constructor].
      destruct Hui as [Hdeck Hstudy Htag _ _].
      repeat split; simpl; auto.
Qed.

End FlowInvariants.


Section FurtherFlow.

Variable parseFloat : value -> number.
Variable typeErrorMessage : string -> string.

Local Abbreviation poll := (AppTsx.pollJobStatus parseFloat typeErrorMessage).
Local Abbreviation step := (AppTsx.step parseFloat typeErrorMessage).
Local Abbreviation run := (AppTsx.run parseFloat typeErrorMessage).
Local Abbreviation reachable := (reachable parseFloat typeErrorMessage).

(** X4. In every reachable state the stored deck has a name ending in
    ".apkg" and the stored study material a name ending in ".pdf", and
    every POST the component has issued carries such a deck and such a
    study file together with a tag prefix that is not empty and matches
    [^[A-Za-z0-9_]*$]. *)
Theorem X4_posts_carry_validated_inputs :
  forall events : list AppTsx.Event,
    let w := run AppTsx.initialWorld events in
    Forall well_formed_post (AppTsx.posts w) /\
    (forall f, AppTsx.ankiFile (AppTsx.ui w) = Some f ->
               endsWith (fileName f) ".apkg" = true) /\
    (forall f, AppTsx.studyMaterial (AppTsx.ui w) = Some f ->
               endsWith (fileName f) ".pdf" = true).
Proof.
  intros events w.
  destruct (run_flow parseFloat typeErrorMessage events) as ([Hd Hs _ _ _] & _ & Hp).
  auto.
Qed.

(** X5. In every reachable state, while processing is on no success
    message is set and the results are hidden. *)
Theorem X5_processing_excludes_success_and_results :
  forall events : list AppTsx.Event,
    let w := run AppTsx.initialWorld events in
    AppTsx.processing (AppTsx.ui w) = true ->
    AppTsx.success (AppTsx.ui w) = None /\ AppTsx.showResults (AppTsx.ui w) = false.
Proof.
  intros events w.
  destruct (run_flow parseFloat typeErrorMessage events) as ([_ _ _ Hb _] & _).
  exact Hb.
Qed.

(** X6. In every reachable state the estimated time is null or a number
    that is at least 0: a negative or not-a-number estimate of the server
    is never stored. *)
Theorem X6_estimated_time_never_negative :
  forall (events : list AppTsx.Event) (t : number),
    AppTsx.estimatedTime (AppTsx.ui (run AppTsx.initialWorld events)) = Some t ->
    num_geb t (num_of_Z 0) = true.
Proof.
  intros events.
  destruct (run_flow parseFloat typeErrorMessage events) as ([_ _ _ _ Ht] & _).
  exact Ht.
Qed.

(** X7. In every reachable world, every status request was issued by an
    interval that a submission started, for a job id that is truthy; the
    requests of one interval all ask for the same job id; and there are
    never more intervals started and submissions in flight than POSTs
    issued. *)
Theorem X7_status_requests_follow_submissions :
  forall events : list AppTsx.Event,
    let w := run AppTsx.initialWorld events in
    (forall i job, In (i, job) (AppTsx.statusRequests w) ->
       truthy job = true /\ i < AppTsx.nextInterval w) /\
    (forall i job job',
       In (i, job) (AppTsx.statusRequests w) ->
       In (i, job') (AppTsx.statusRequests w) -> job = job') /\
    AppTsx.nextInterval w + AppTsx.pendingSubmits w <= List.length (AppTsx.posts w).
Proof.
  intros events w.
  destruct (run_flow parseFloat typeErrorMessage events)
    as (_ & [Hstart _ _ Hreq _ Hone] & _).
  repeat split; auto; now apply (Hreq i job).
Qed.

Lemma step_stalled (w : AppTsx.World) (e : AppTsx.Event) :
  stalled w ->
  stalled (step w e) /\
  AppTsx.posts (step w e) = AppTsx.posts w /\
  AppTsx.statusRequests (step w e) = AppTsx.statusRequests w.
Proof.
  intros (Hp & Hi & Hpp & Hs). unfold stalled, AppTsx.step.
  destruct e as [ft f|v|v| | |r|i|n r]; rewrite ?Hp, ?Hi, ?Hpp, ?Hs; simpl; auto.
  - unfold AppTsx.handleFileUpload.
    destruct f as [f|]; [destruct ft|];
      repeat match goal with
      | |- context [if ?c then _ else _] => destruct c
      end; simpl; auto.
  - destruct (AppTsx.resultsRendered (AppTsx.ui w)); simpl; auto.
  - destruct n; simpl; auto.
Qed.

(** X8. A submission answered with a success status and a JSON body
    whose task_id is missing or falsy changes nothing: no error is shown,
    no interval is started and processing stays on.  A world that is
    processing with no interval and no request in flight stays so whatever
    happens next: processing stays on, and no POST and no status request is
    ever issued again. *)
Theorem X8_missing_job_id_stalls :
  (forall (w : AppTsx.World) (response : Response) (data job : value),
      AppTsx.pendingSubmits w <> 0 ->
      ok response = true ->
      json response = Resolved data ->
      get data "task_id" = Some job ->
      truthy job = false ->
      step w (AppTsx.SubmitSettled (Resolved response)) = AppTsx.settleSubmit w) /\
  (forall (w : AppTsx.World) (events : list AppTsx.Event),
      stalled w ->
      stalled (run w events) /\
      AppTsx.posts (run w events) = AppTsx.posts w /\
      AppTsx.statusRequests (run w events) = AppTsx.statusRequests w).
Proof.
  split.
  - intros w response data job Hp Hok Hjson Hjob Hfalsy. unfold AppTsx.step.
    destruct (AppTsx.pendingSubmits w); [contradiction|].
    unfold_world. rewrite Hok, Hjson. simpl. rewrite Hjob. simpl.
    now rewrite Hfalsy.
  - intros w events. revert w.
    induction events as [|e events IH]; intros w H; [simpl; auto|].
    destruct (step_stalled w e H) as (H' & Hposts & Hreq).
    destruct (IH (step w e) H') as (H'' & Hposts' & Hreq').
    split; [exact H''|]. simpl. split; congruence.
Qed.

(** X9. The label of the main button tells what a click does.  With
    "Processing..." the button is disabled and a click changes nothing;
    with "Download Tagged Deck" a click only clicks a link to the
    download_url of the results, leaving the state and the requests as they
    are; with "Process Deck" a click runs [handleSubmit].  There is no
    other label. *)
Theorem X9_button_label_matches_action :
  forall w : AppTsx.World,
    let label := AppTsx.getButtonText (AppTsx.ui w) in
    let w' := step w AppTsx.ButtonClicked in
    (label = "Processing..." \/ label = "Download Tagged Deck" \/ label = "Process Deck") /\
    (label = "Processing..." -> w' = w) /\
    (label = "Download Tagged Deck" ->
     AppTsx.ui w' = AppTsx.ui w /\
     AppTsx.posts w' = AppTsx.posts w /\
     AppTsx.pendingSubmits w' = AppTsx.pendingSubmits w /\
     AppTsx.downloads w' =
       (AppTsx.downloads w
        ++ [AppTsx.opt_get (AppTsx.processingResults (AppTsx.ui w)) "download_url"])%list) /\
    (label = "Process Deck" -> w' = AppTsx.handleSubmit w).
Proof.
  intros w label w'. subst label w'.
  unfold AppTsx.getButtonText, AppTsx.step, AppTsx.handleButtonClick.
  destruct (AppTsx.processing (AppTsx.ui w)).
  - repeat split; auto; discriminate.
  - destruct (AppTsx.showResults (AppTsx.ui w)
              && truthy (AppTsx.opt_get (AppTsx.processingResults (AppTsx.ui w))
                           "download_url")).
    + repeat split; auto; discriminate.
    + repeat split; auto; discriminate.
Qed.

End FurtherFlow.

Section FurtherPolling.

Variable parseFloat : value -> number.
Variable typeErrorMessage : string -> string.
Variable JSON_parse : string -> Fetched value.
Variable hostToString : value -> string.

Local Abbreviation poll := (AppTsx.pollJobStatus parseFloat typeErrorMessage).
Local Abbreviation step := (AppTsx.step parseFloat typeErrorMessage).
Local Abbreviation run := (AppTsx.run parseFloat typeErrorMessage).
Local Abbreviation reachable := (reachable parseFloat typeErrorMessage).
Local Abbreviation jpoll := (AppJs.pollJobStatus typeErrorMessage hostToString).
Local Abbreviation jresume := (AppJs.intervalCallback_resume typeErrorMessage hostToString).
Local Abbreviation jsubmitted :=
  (AppJs.handleSubmit_resume typeErrorMessage JSON_parse hostToString).






(** X14. In the variant of src/unnamed/part_001 a JSON response with a
    success status and status "COMPLETED" sets the success message,
    switches processing off, shows no error, navigates to the download_url
    when the response has a truthy one (and only then), schedules one
    delayed [resetState] and cancels the interval; and [resetState] run on
    the resulting state gives the state at mount except for the selected
    model. *)
Theorem X14_js_completion_and_reset :
  forall (response : Response) (data : value) (e : AppJs.Env),
    json_content_type response = true ->
    ok response = true ->
    json response = Resolved data ->
    completed_status data = true ->
    let e' := fst (jresume (Resolved response) e) in
    AppJs.success (AppJs.ui e') = Some "Processing completed successfully!" /\
    AppJs.processing (AppJs.ui e') = false /\
    AppJs.error (AppJs.ui e') = AppJs.error (AppJs.ui e) /\
    AppJs.effects e' = (AppJs.effects e ++ completion_effects data)%list /\
    AppJs.resetState (AppJs.ui e') =
      AppJs.setSelectedModel (AppJs.selectedModel (AppJs.ui e)) AppJs.initialState.
Proof.
  intros response data e Hct Hok Hjson Hdone e'. subst e'.
  unfold AppJs.intervalCallback_resume. unfold_handler.
  unfold json_content_type in Hct. apply negb_true_iff in Hct.
  rewrite Hct, Hok, Hjson. simpl.
  unfold completed_status in Hdone.
  assert (Hget : forall k, get data k = Some (AppTsx.opt_get data k)).
  { intros k. destruct data; simpl in *; try reflexivity; discriminate. }
  rewrite !Hget. rewrite Hdone. unfold completion_effects.
  destruct (truthy (AppTsx.opt_get data "download_url")); simpl;
    rewrite <- ?app_assoc; simpl; repeat split.
Qed.

(** X15. In the variant of src/unnamed/part_001 a submission answered
    with a success status and a JSON body that is not null stores the
    task_id and the estimated_time of the body as they are (replacing the
    estimate made at upload, also when the body has none), shows no error,
    leaves processing as it is, and starts an interval exactly when the
    task_id is truthy. *)
Theorem X15_js_submission_response :
  forall (response : Response) (data job : value) (e : AppJs.Env),
    ok response = true ->
    json response = Resolved data ->
    get data "task_id" = Some job ->
    let e' := fst (jsubmitted (Resolved response) e) in
    AppJs.ui e' =
      AppJs.setEstimatedTime (AppTsx.opt_get data "estimated_time")
        (AppJs.setJobId job (AppJs.ui e)) /\
    AppJs.effects e' =
      (AppJs.effects e ++ if truthy job then [AppJs.SetInterval data] else [])%list.
Proof.
  intros response data job e Hok Hjson Hjob e'. subst e'.
  unfold AppJs.handleSubmit_resume.
  cbv [try_catch bind await ret modify throw AppJs.prop].
  rewrite Hok, Hjson. simpl. rewrite Hjob.
  rewrite (get_opt_get data "task_id" "estimated_time" job Hjob). simpl.
  destruct (truthy job); simpl; split; try reflexivity.
  now rewrite app_nil_r.
Qed.

End FurtherPolling.

(** ** Further properties: the estimate of src/unnamed/part_001 *)

Lemma round_to_between (u n : Z) :
  (0 < u)%Z ->
  (n / u * u <= AppJs.round_to u n <= (n / u + 1) * u)%Z.
Proof.
  intros Hu. unfold AppJs.round_to.
  destruct (2 * (n mod u) <? u)%Z; [nia|].
  destruct (u <? 2 * (n mod u))%Z; [nia|].
  destruct (Z.even (n / u)); nia.
Qed.

Lemma round_to_mono (u a b : Z) :
  (0 < u)%Z -> (a <= b)%Z ->
  (AppJs.round_to u a <= AppJs.round_to u b)%Z.
Proof.
  intros Hu Hab.
  pose proof (Z.div_le_mono a b u Hu Hab) as Hq.
  destruct (Z.eq_dec (a / u) (b / u)) as [E | NE].
  - pose proof (Z.div_mod a u ltac:(lia)) as Ha.
    pose proof (Z.div_mod b u ltac:(lia)) as Hb.
    assert (Hr : (a mod u <= b mod u)%Z) by (rewrite E in Ha; nia).
    unfold AppJs.round_to. rewrite E.
    destruct (2 * (a mod u) <? u)%Z eqn:A1;
    destruct (2 * (b mod u) <? u)%Z eqn:B1;
    destruct (u <? 2 * (a mod u))%Z eqn:A2;
    destruct (u <? 2 * (b mod u))%Z eqn:B2;
    destruct (Z.even (b / u)); try nia; lia.
  - pose proof (round_to_between u a Hu) as [_ Ha].
    pose proof (round_to_between u b Hu) as [Hb _].
    assert (a / u + 1 <= b / u)%Z by lia. nia.
Qed.

(** From 2^53 on, the spacing of the doubles around [n] leaves 53 bits. *)
Lemma spacing (n : Z) :
  (2 ^ 53 <= n)%Z ->
  let u := (2 ^ (Z.log2 n - 52))%Z in
  (0 < u /\ 2 ^ 52 * u <= n < 2 ^ 53 * u)%Z.
Proof.
  intros Hn u.
  assert (Hpos : (0 < n)%Z) by (pose proof (Z.pow_pos_nonneg 2 53); lia).
  pose proof (Z.log2_spec n Hpos) as [Hlo Hhi].
  assert (Hlog : (53 <= Z.log2 n)%Z).
  { apply Z.log2_le_pow2; [exact Hpos | exact Hn]. }
  assert (E1 : (2 ^ Z.log2 n = 2 ^ 52 * u)%Z).
  { unfold u. rewrite <- Z.pow_add_r by lia. f_equal. lia. }
  assert (E2 : (2 ^ Z.succ (Z.log2 n) = 2 ^ 53 * u)%Z).
  { unfold u. rewrite <- Z.pow_add_r by lia. f_equal. lia. }
  split; [unfold u; apply Z.pow_pos_nonneg; lia | lia].
Qed.

Lemma to_double_exact (n : Z) :
  (n < 2 ^ 53)%Z -> AppJs.to_double n = n.
Proof.
  intros H. unfold AppJs.to_double.
  destruct (Z.ltb_spec n (2 ^ 53)); [reflexivity | lia].
Qed.

Lemma to_double_large (n : Z) :
  (2 ^ 53 <= n)%Z ->
  let u := (2 ^ (Z.log2 n - 52))%Z in
  AppJs.to_double n = AppJs.round_to u n /\
  (2 ^ 52 * u <= AppJs.to_double n <= 2 ^ 53 * u)%Z.
Proof.
  intros Hn u.
  destruct (spacing n Hn) as (Hu & Hlo & Hhi). fold u in Hu, Hlo, Hhi.
  assert (E : AppJs.to_double n = AppJs.round_to u n).
  { unfold AppJs.to_double. destruct (Z.ltb_spec n (2 ^ 53)); [lia | reflexivity]. }
  split; [exact E|]. rewrite E.
  pose proof (round_to_between u n Hu) as [Hb1 Hb2].
  assert (2 ^ 52 <= n / u)%Z by (apply Z.div_le_lower_bound; lia).
  assert (n / u < 2 ^ 53)%Z by (apply Z.div_lt_upper_bound; lia).
  nia.
Qed.

(** Rounding to the nearest double keeps the order. *)
Lemma to_double_mono (a b : Z) :
  (a <= b)%Z -> (AppJs.to_double a <= AppJs.to_double b)%Z.
Proof.
  intros Hab.
  destruct (Z.lt_ge_cases b (2 ^ 53)) as [Hb | Hb].
  - rewrite !to_double_exact by lia. exact Hab.
  - destruct (to_double_large b Hb) as (Eb & Hb1 & Hb2).
    destruct (spacing b Hb) as (Hub & Hblo & Hbhi).
    destruct (Z.lt_ge_cases a (2 ^ 53)) as [Ha | Ha].
    + rewrite (to_double_exact a Ha). nia.
    + destruct (to_double_large a Ha) as (Ea & Ha1 & Ha2).
      destruct (spacing a Ha) as (Hua & Halo & Hahi).
      assert (Hpa : (0 < a)%Z) by (pose proof (Z.pow_pos_nonneg 2 53); lia).
      pose proof (Z.log2_le_mono a b Hab) as Hlog.
      assert (Hla : (53 <= Z.log2 a)%Z).
      { apply Z.log2_le_pow2; [exact Hpa | exact Ha]. }
      destruct (Z.eq_dec (Z.log2 a) (Z.log2 b)) as [E | NE].
      * rewrite Ea, Eb, E. apply round_to_mono; [rewrite <- E; exact Hua | exact Hab].
      * assert (Hk : (2 ^ (Z.log2 b - 52) = 2 * 2 ^ (Z.log2 b - 53))%Z).
        { rewrite <- (Z.pow_succ_r 2) by lia. f_equal. lia. }
        assert (Hle : (2 ^ (Z.log2 a - 52) <= 2 ^ (Z.log2 b - 53))%Z).
        { apply Z.pow_le_mono_r; lia. }
        nia.
Qed.

Lemma to_double_positive (n : Z) :
  (0 < n)%Z -> (0 < AppJs.to_double n)%Z.
Proof.
  intros Hn. pose proof (to_double_mono 1 n ltac:(lia)) as H.
  rewrite (to_double_exact 1) in H by reflexivity. lia.
Qed.

Lemma estimatedSeconds_bounds (size : N) :
  exists z : Z,
    AppJs.estimatedSeconds size = num_of_Z z /\
    let product := AppJs.to_double (AppJs.to_double (Z.of_N size) * 30) in
    (product <= z * 1048576 < product + 1048576)%Z.
Proof.
  unfold AppJs.estimatedSeconds.
  change (1024 * 1024)%Z with 1048576%Z.
  set (product := AppJs.to_double (AppJs.to_double (Z.of_N size) * 30)).
  set (q := (inject_Z product / inject_Z 1048576)%Q).
  exists (Qceiling q). split; [reflexivity|].
  pose proof (Qle_ceiling q) as Hle.
  pose proof (Qceiling_lt q) as Hlt.
  unfold Qle in Hle. unfold Qlt in Hlt. subst q. simpl in Hle, Hlt.
  lia.
Qed.

(** X16. The estimate the variant of src/unnamed/part_001 makes when a
    deck is chosen is a whole number of seconds.  For a file below 2^53 /
    30 bytes, where no double is rounded, it is 30 for every started MiB
    of the file: the least z with 30 * size <= z * 2^20.  Above, the
    product is rounded before the ceiling is taken, and the estimate can
    be one less than that: it is 64424509453 for 2251799814139631 bytes.
    For every size the estimate is 0 only for an empty file and never
    decreases when the file grows. *)
Theorem X16_js_upload_estimate :
  (forall size : N,
      (30 * Z.of_N size < 2 ^ 53)%Z ->
      exists z : Z,
        AppJs.estimatedSeconds size = num_of_Z z /\
        (30 * Z.of_N size <= z * 1048576 < 30 * Z.of_N size + 1048576)%Z) /\
  AppJs.estimatedSeconds 2251799814139631 = num_of_Z 64424509453 /\
  (forall size : N, AppJs.estimatedSeconds size = num_of_Z 0 <-> size = 0%N) /\
  (forall (a b : N) (za zb : Z),
      (a <= b)%N ->
      AppJs.estimatedSeconds a = num_of_Z za ->
      AppJs.estimatedSeconds b = num_of_Z zb ->
      (za <= zb)%Z) /\
  (forall (f : File) (s : AppJs.State),
      endsWith (fileName f) ".apkg" = true ->
      AppJs.estimatedTime (AppJs.handleFileUpload (Some f) anki s) =
      VNum (AppJs.estimatedSeconds (fileSize f))).
Proof.
  assert (Hinj : forall x y, num_of_Z x = num_of_Z y -> x = y).
  { unfold num_of_Z, inject_Z. intros x y [= H]. exact H. }
  repeat apply conj.
  - intros size Hsize.
    destruct (estimatedSeconds_bounds size) as (z & E & Hz).
    exists z. split; [exact E|]. cbv zeta in Hz.
    rewrite (to_double_exact (Z.of_N size)) in Hz by lia.
    rewrite to_double_exact in Hz by lia. lia.
  - vm_compute. reflexivity.
  - intros size. destruct (estimatedSeconds_bounds size) as (z & E & Hz).
    cbv zeta in Hz. rewrite E. split.
    + intros H. apply Hinj in H. subst z.
      destruct (N.eq_0_gt_0_cases size) as [-> | Hpos]; [reflexivity|].
      pose proof (to_double_positive (Z.of_N size) ltac:(lia)).
      pose proof (to_double_positive (AppJs.to_double (Z.of_N size) * 30) ltac:(lia)).
      lia.
    + intros ->. f_equal.
      change (AppJs.to_double (AppJs.to_double (Z.of_N 0) * 30)) with 0%Z in Hz. lia.
  - intros a b za zb Hab Ea Eb.
    destruct (estimatedSeconds_bounds a) as (z1 & E1 & H1).
    destruct (estimatedSeconds_bounds b) as (z2 & E2 & H2).
    cbv zeta in H1, H2.
    rewrite E1 in Ea. rewrite E2 in Eb. apply Hinj in Ea, Eb. subst z1 z2.
    pose proof (to_double_mono (Z.of_N a) (Z.of_N b) ltac:(lia)) as Hm.
    pose proof (to_double_mono (AppJs.to_double (Z.of_N a) * 30)
                  (AppJs.to_double (Z.of_N b) * 30) ltac:(lia)) as Hp.
    lia.
  - intros f s H. unfold AppJs.handleFileUpload. now rewrite H.
Qed.

Lemma X16_js_upload_estimate_witness :
  (30 * Z.of_N 1048577 < 2 ^ 53)%Z /\
  (exists z : Z,
      AppJs.estimatedSeconds 1048577 = num_of_Z z /\
      (30 * Z.of_N 1048577 <= z * 1048576 < 30 * Z.of_N 1048577 + 1048576)%Z) /\
  AppJs.estimatedTime
    (AppJs.handleFileUpload (Some (mkFile "deck.apkg" 1048577)) anki AppJs.initialState)
  = VNum (AppJs.estimatedSeconds 1048577).
Proof.
  assert (Hsize : (30 * Z.of_N 1048577 < 2 ^ 53)%Z) by (vm_compute; reflexivity).
  split; [exact Hsize|]. split.
  - apply (proj1 X16_js_upload_estimate 1048577%N Hsize).
  - apply (proj2 (proj2 (proj2 (proj2 X16_js_upload_estimate)))
             (mkFile "deck.apkg" 1048577)).
    reflexivity.
Defined.

(** ** Instances of the further properties *)

Lemma X4_posts_witness :
  Forall well_formed_post
    (AppTsx.posts
       (AppTsx.run sample_parseFloat sample_typeErrorMessage AppTsx.initialWorld clicked)).
Proof.
  apply (proj1 (X4_posts_carry_validated_inputs sample_parseFloat
                  sample_typeErrorMessage clicked)).
Defined.

Lemma X5_processing_witness :
  let w := AppTsx.run sample_parseFloat sample_typeErrorMessage
             AppTsx.initialWorld clicked in
  AppTsx.processing (AppTsx.ui w) = true /\
  AppTsx.success (AppTsx.ui w) = None /\
  AppTsx.showResults (AppTsx.ui w) = false.
Proof.
  intros w. split; [reflexivity|].
  apply (X5_processing_excludes_success_and_results sample_parseFloat
           sample_typeErrorMessage clicked).
  reflexivity.
Defined.

Lemma X6_estimated_time_witness :
  AppTsx.estimatedTime
    (AppTsx.ui
       (AppTsx.run sample_parseFloat sample_typeErrorMessage AppTsx.initialWorld
          (submitted ++ [AppTsx.PollSettled 0 (json_response running_at_42)])))
  = Some (num_of_Z 0) /\
  num_geb (num_of_Z 0) (num_of_Z 0) = true.
Proof.
  split; [reflexivity|].
  apply (X6_estimated_time_never_negative sample_parseFloat sample_typeErrorMessage
           (submitted ++ [AppTsx.PollSettled 0 (json_response running_at_42)])).
  reflexivity.
Defined.

Lemma X7_status_requests_witness :
  truthy (VStr "job-1") = true /\
  0 < AppTsx.nextInterval
        (AppTsx.run sample_parseFloat sample_typeErrorMessage
           AppTsx.initialWorld submitted).
Proof.
  apply (proj1 (X7_status_requests_follow_submissions sample_parseFloat
                  sample_typeErrorMessage submitted) 0 (VStr "job-1")).
  left. reflexivity.
Defined.

Lemma X8_missing_job_id_witness :
  let w := AppTsx.run sample_parseFloat sample_typeErrorMessage AppTsx.initialWorld
             (clicked ++ [AppTsx.SubmitSettled (json_response (VObj []))]) in
  let w' := AppTsx.run sample_parseFloat sample_typeErrorMessage w
              [AppTsx.ButtonClicked; AppTsx.Tick 0; AppTsx.AnotherDeckClicked] in
  AppTsx.processing (AppTsx.ui w') = true /\
  AppTsx.posts w' = AppTsx.posts w.
Proof.
  intros w w'.
  destruct (proj2 (X8_missing_job_id_stalls sample_parseFloat sample_typeErrorMessage)
              w [AppTsx.ButtonClicked; AppTsx.Tick 0; AppTsx.AnotherDeckClicked])
    as ((Hproc & _) & Hposts & _).
  - repeat split.
  - split; [exact Hproc | exact Hposts].
Defined.

Lemma X9_button_label_witness :
  AppTsx.step sample_parseFloat sample_typeErrorMessage AppTsx.initialWorld
    AppTsx.ButtonClicked
  = AppTsx.handleSubmit AppTsx.initialWorld.
Proof.
  apply (X9_button_label_matches_action sample_parseFloat sample_typeErrorMessage
           AppTsx.initialWorld).
  reflexivity.
Defined.





Lemma X14_js_completion_witness :
  AppJs.effects
    (fst (AppJs.intervalCallback_resume sample_typeErrorMessage sample_hostToString
            (json_response
               (VObj [("status", VStr "COMPLETED"); ("download_url", VStr "/d/1")]))
            js_processing))
  = [AppJs.Navigate (VStr "/d/1"); AppJs.SetTimeoutReset; AppJs.ClearInterval].
Proof.
  apply (X14_js_completion_and_reset sample_typeErrorMessage sample_hostToString
           {| ok := true; status := 200;
              contentType := Some "application/json";
              text := Rejected (Error "body stream already read");
              json := Resolved
                        (VObj [("status", VStr "COMPLETED");
                               ("download_url", VStr "/d/1")]) |}
           (VObj [("status", VStr "COMPLETED"); ("download_url", VStr "/d/1")])
           js_processing);
    reflexivity.
Defined.

Lemma X15_js_submission_witness :
  AppJs.effects
    (fst (AppJs.handleSubmit_resume sample_typeErrorMessage sample_JSON_parse
            sample_hostToString
            (json_response (VObj [("task_id", VStr "job-1")])) js_processing))
  = [AppJs.SetInterval (VObj [("task_id", VStr "job-1")])].
Proof.
  apply (X15_js_submission_response sample_typeErrorMessage sample_JSON_parse
           sample_hostToString
           {| ok := true; status := 200;
              contentType := Some "application/json";
              text := Rejected (Error "body stream already read");
              json := Resolved (VObj [("task_id", VStr "job-1")]) |}
           (VObj [("task_id", VStr "job-1")]) (VStr "job-1") js_processing);
    reflexivity.
Defined.

(** ** Further properties: which event reaches the network *)

Section Network.

Variable parseFloat : value -> number.
Variable typeErrorMessage : string -> string.
Variable hostToString : value -> string.

Local Abbreviation step := (AppTsx.step parseFloat typeErrorMessage).
Local Abbreviation jpoll := (AppJs.pollJobStatus typeErrorMessage hostToString).

Lemma step_posts (w : AppTsx.World) (e : AppTsx.Event) :
  e <> AppTsx.ButtonClicked -> AppTsx.posts (step w e) = AppTsx.posts w.
Proof.
  intros He. destruct e as [ft f|v|v| | |r|i|n r]; try contradiction;
    unfold AppTsx.step; try reflexivity.
  - destruct (AppTsx.resultsRendered (AppTsx.ui w)); reflexivity.
  - destruct (AppTsx.pendingSubmits w); [reflexivity|].
    unfold_world. destruct r as [err|response]; simpl; [reflexivity|].
    destruct (ok response); simpl; [|reflexivity].
    destruct (json response) as [err|data]; simpl; [reflexivity|].
    destruct (get data "task_id") as [job|]; simpl; [|reflexivity].
    destruct (truthy job); reflexivity.
  - destruct (AppTsx.interval_data i (AppTsx.intervals w)) as [data|]; [|reflexivity].
    unfold_world. destruct (get data "task_id"); reflexivity.
  - destruct (nth_error (AppTsx.pendingPolls w) n) as [[i data]|]; [|reflexivity].
    destruct (poll_frame parseFloat typeErrorMessage r (AppTsx.ui (AppTsx.settlePoll n w)))
      as (s' & b & E & _).
    unfold_world. rewrite E. destruct b; reflexivity.
Qed.

Lemma step_requests (w : AppTsx.World) (e : AppTsx.Event) :
  (forall i, e <> AppTsx.Tick i) ->
  AppTsx.statusRequests (step w e) = AppTsx.statusRequests w.
Proof.
  intros He. destruct e as [ft f|v|v| | |r|i|n r];
    unfold AppTsx.step; try reflexivity.
  - destruct (AppTsx.processing (AppTsx.ui w)); [reflexivity|].
    unfold AppTsx.handleButtonClick, AppTsx.handleSubmit.
    repeat match goal with
    | |- context [if ?c then _ else _] => destruct c
    | |- context [match ?x with Some _ => _ | None => _ end] => destruct x
    end; reflexivity.
  - destruct (AppTsx.resultsRendered (AppTsx.ui w)); reflexivity.
  - destruct (AppTsx.pendingSubmits w); [reflexivity|].
    unfold_world. destruct r as [err|response]; simpl; [reflexivity|].
    destruct (ok response); simpl; [|reflexivity].
    destruct (json response) as [err|data]; simpl; [reflexivity|].
    destruct (get data "task_id") as [job|]; simpl; [|reflexivity].
    destruct (truthy job); reflexivity.
  - now destruct (He i).
  - destruct (nth_error (AppTsx.pendingPolls w) n) as [[i data]|]; [|reflexivity].
    destruct (poll_frame parseFloat typeErrorMessage r (AppTsx.ui (AppTsx.settlePoll n w)))
      as (s' & b & E & _).
    unfold_world. rewrite E. destruct b; reflexivity.
Qed.

(** X17. In src/src/App.tsx only a click on the main button can issue
    a POST and only a tick of an interval can issue a status request: every
    other event leaves the log of POSTs, respectively of status requests,
    as it is; in particular "Process Another Deck" cancels no interval and
    no request.  A click with the button enabled, no download on offer,
    both files chosen and a tag that is not empty issues exactly one POST,
    which carries the two files, the tag and the selected model, and puts
    the component in the processing state with the previous error, success
    message and results cleared. *)
Theorem X17_what_reaches_the_network :
  (forall (w : AppTsx.World) (e : AppTsx.Event),
      e <> AppTsx.ButtonClicked -> AppTsx.posts (step w e) = AppTsx.posts w) /\
  (forall (w : AppTsx.World) (e : AppTsx.Event),
      (forall i, e <> AppTsx.Tick i) ->
      AppTsx.statusRequests (step w e) = AppTsx.statusRequests w) /\
  (forall w : AppTsx.World,
      let w' := step w AppTsx.AnotherDeckClicked in
      AppTsx.intervals w' = AppTsx.intervals w /\
      AppTsx.pendingPolls w' = AppTsx.pendingPolls w) /\
  (forall (w : AppTsx.World) (a m : File),
      AppTsx.processing (AppTsx.ui w) = false ->
      AppTsx.showResults (AppTsx.ui w)
      && truthy (AppTsx.opt_get (AppTsx.processingResults (AppTsx.ui w)) "download_url")
      = false ->
      AppTsx.ankiFile (AppTsx.ui w) = Some a ->
      AppTsx.studyMaterial (AppTsx.ui w) = Some m ->
      AppTsx.customTag (AppTsx.ui w) <> "" ->
      let w' := step w AppTsx.ButtonClicked in
      AppTsx.posts w' =
        (AppTsx.posts w
         ++ [ {| anki_file := a; study_material := m;
                 custom_tag := AppTsx.customTag (AppTsx.ui w);
                 model := AppTsx.selectedModel (AppTsx.ui w) |} ])%list /\
      AppTsx.pendingSubmits w' = S (AppTsx.pendingSubmits w) /\
      AppTsx.processing (AppTsx.ui w') = true /\
      AppTsx.error (AppTsx.ui w') = VNull /\
      AppTsx.success (AppTsx.ui w') = None /\
      AppTsx.showResults (AppTsx.ui w') = false /\
      AppTsx.processingResults (AppTsx.ui w') = VNull /\
      AppTsx.progress (AppTsx.ui w') = num_of_Z 0 /\
      AppTsx.currentPhase (AppTsx.ui w') = VStr "Initializing").
Proof.
  repeat apply conj.
  - apply step_posts.
  - apply step_requests.
  - intros w w'. subst w'. unfold AppTsx.step.
    destruct (AppTsx.resultsRendered (AppTsx.ui w)); split; reflexivity.
  - intros w a m Hp Hd Ha Hm Ht w'. subst w'.
    unfold AppTsx.step, AppTsx.handleButtonClick, AppTsx.handleSubmit.
    rewrite Hp, Hd, Ha, Hm.
    destruct (AppTsx.customTag (AppTsx.ui w)) eqn:Etag; [contradiction|].
    simpl. rewrite ?Etag. repeat split.
Qed.

(** X18. In the variant of src/unnamed/part_001 a JSON response with a
    success status whose body is not null and reports neither "COMPLETED"
    nor "FAILED" keeps the polling going: [pollJobStatus] returns [false]
    and asks nothing of the browser; it stores progress || 0 and
    current_phase || null, so a response without a phase clears the phase
    shown, and it leaves the rest of the state as it is. *)
Theorem X18_js_running_response :
  forall (response : Response) (data st : value) (e : AppJs.Env),
    json_content_type response = true ->
    ok response = true ->
    json response = Resolved data ->
    get data "status" = Some st ->
    is_string st "COMPLETED" = false ->
    is_string st "FAILED" = false ->
    jpoll (Resolved response) e =
    (AppJs.on_ui
       (fun s =>
          AppJs.setCurrentPhase (or_else (AppTsx.opt_get data "current_phase") VNull)
            (AppJs.setProgress
               (or_else (AppTsx.opt_get data "progress") (VNum (num_of_Z 0))) s))
       e,
     Ok false).
Proof.
  intros response data st e Hct Hok Hjson Hst Hc Hf. unfold_handler.
  unfold json_content_type in Hct. apply negb_true_iff in Hct.
  rewrite Hct, Hok, Hjson. simpl.
  rewrite (get_opt_get data "status" "progress" st Hst).
  rewrite (get_opt_get data "status" "current_phase" st Hst).
  rewrite Hst. simpl. now rewrite Hc, Hf.
Qed.

End Network.

Lemma X17_network_witness :
  AppTsx.posts
    (AppTsx.run sample_parseFloat sample_typeErrorMessage AppTsx.initialWorld clicked)
  = [ {| anki_file := mkFile "deck.apkg" 1000;
         study_material := mkFile "notes.pdf" 2000;
         custom_tag := "My_Tag_";
         model := "text-embedding-3-large" |} ].
Proof.
  apply (proj2 (proj2 (proj2 (X17_what_reaches_the_network sample_parseFloat
                                sample_typeErrorMessage)))
           (AppTsx.run sample_parseFloat sample_typeErrorMessage AppTsx.initialWorld
              (removelast clicked))
           (mkFile "deck.apkg" 1000) (mkFile "notes.pdf" 2000));
    (reflexivity || discriminate).
Defined.

Lemma X18_js_running_witness :
  AppJs.currentPhase
    (AppJs.ui
       (fst (AppJs.pollJobStatus sample_typeErrorMessage sample_hostToString
               (json_response (VObj [("status", VStr "PROCESSING")]))
               {| AppJs.ui := AppJs.setCurrentPhase (VStr "Embedding") AppJs.initialState;
                  AppJs.effects := [] |})))
  = VNull.
Proof.
  rewrite (X18_js_running_response sample_typeErrorMessage sample_hostToString
             {| ok := true; status := 200;
                contentType := Some "application/json";
                text := Rejected (Error "body stream already read");
                json := Resolved (VObj [("status", VStr "PROCESSING")]) |}
             (VObj [("status", VStr "PROCESSING")]) (VStr "PROCESSING"));
    reflexivity.
Defined.
